(** * r3f showcase viewer: camera tween, markers, asset loader, device probe

    Shallow embedding of the three variants of the viewer:
    - [AppJsx]   : src/src/App.jsx
    - [Part000]  : src/unnamed/part_000 (the mobile-optimised variant)
    - [Part001]  : src/unnamed/part_001 (the cube variant)

    JavaScript numbers are IEEE 754 binary64 values, so they are modelled
    by Rocq's primitive floats: [+], [*], [/] and [sqrt] round exactly as
    the engine does.  [Math.cos] and [Math.pow] are implementation-defined
    approximations in ECMAScript; the definitions that call them take them
    as parameters. *)

From Stdlib Require Import Floats List Bool String Arith Lia.
Import ListNotations.

#[local] Set Warnings "-inexact-float".
#[local] Open Scope float_scope.

(** ** JavaScript number primitives used by the sources *)
Module JS.

Definition number := float.

(** [ToBoolean] on a number: [0], [-0] and [NaN] are falsy. *)
Definition ToBoolean (x : number) : bool :=
  negb (is_nan x || is_zero x).

(** [x || d] on numbers. *)
Definition or_else (x d : number) : number :=
  if ToBoolean x then x else d.

Definition is_pos_zero (x : number) : bool :=
  match classify x with PZero => true | _ => false end.

Definition is_neg_zero (x : number) : bool :=
  match classify x with NZero => true | _ => false end.

(** One iteration of the loop of [Math.max] (ECMA-262, 21.3.2.24). *)
Definition max_step (highest n : number) : number :=
  if is_nan highest then nan
  else if is_nan n then nan
  else if is_pos_zero n && is_neg_zero highest then n
  else if highest <? n then n
  else highest.

Definition Math_max (args : list number) : number :=
  fold_left max_step args neg_infinity.

(** One iteration of the loop of [Math.min] (ECMA-262, 21.3.2.25). *)
Definition min_step (lowest n : number) : number :=
  if is_nan lowest then nan
  else if is_nan n then nan
  else if is_neg_zero n && is_pos_zero lowest then n
  else if n <? lowest then n
  else lowest.

Definition Math_min (args : list number) : number :=
  fold_left min_step args infinity.

(** [Math.PI], the binary64 value nearest to pi. *)
Definition Math_PI : number := 0x1.921fb54442d18p+1.

(** [Number.isFinite]. *)
Definition isFinite (x : number) : bool := is_finite x.

End JS.

(** ** The parts of three.js the sources call

    three.js is a dependency, not part of the repository.  The methods
    below follow its published source (math/Vector3.js, math/Box3.js,
    core/Object3D.js); a vector is a value here, so [clone] and [copy]
    are the identity and in-place methods return the new value. *)
Module THREE.
Import JS.

Record Vector3 := mkVector3 { x : number; y : number; z : number }.

Definition zeroVector : Vector3 := mkVector3 0 0 0.

(** [Math.sqrt(x*x + y*y + z*z)] *)
Definition length (v : Vector3) : number :=
  sqrt (x v * x v + y v * y v + z v * z v).

Definition multiplyScalar (v : Vector3) (s : number) : Vector3 :=
  mkVector3 (x v * s) (y v * s) (z v * s).

(** [divideScalar(s) { return this.multiplyScalar(1 / s) }] *)
Definition divideScalar (v : Vector3) (s : number) : Vector3 :=
  multiplyScalar v (1 / s).

(** The divisor of [normalize]: [this.length() || 1]. *)
Definition normalize_divisor (v : Vector3) : number :=
  or_else (length v) 1.

(** [normalize() { return this.divideScalar(this.length() || 1) }] *)
Definition normalize (v : Vector3) : Vector3 :=
  divideScalar v (normalize_divisor v).

Definition sub (a b : Vector3) : Vector3 :=
  mkVector3 (x a - x b) (y a - y b) (z a - z b).

Definition addVectors (a b : Vector3) : Vector3 :=
  mkVector3 (x a + x b) (y a + y b) (z a + z b).

Definition setScalar (s : number) : Vector3 := mkVector3 s s s.

(** [lerp(v, alpha)]: [this.x += (v.x - this.x) * alpha] *)
Definition lerp (this v : Vector3) (alpha : number) : Vector3 :=
  mkVector3 (x this + (x v - x this) * alpha)
            (y this + (y v - y this) * alpha)
            (z this + (z v - z this) * alpha).

(** [lerpVectors(v1, v2, alpha)]: [this.x = v1.x + (v2.x - v1.x) * alpha] *)
Definition lerpVectors (v1 v2 : Vector3) (alpha : number) : Vector3 :=
  mkVector3 (x v1 + (x v2 - x v1) * alpha)
            (y v1 + (y v2 - y v1) * alpha)
            (z v1 + (z v2 - z v1) * alpha).

(** Componentwise [Math.min] / [Math.max] of two vectors. *)
Definition vmin (a b : Vector3) : Vector3 :=
  mkVector3 (Math_min [x a; x b]) (Math_min [y a; y b]) (Math_min [z a; z b]).

Definition vmax (a b : Vector3) : Vector3 :=
  mkVector3 (Math_max [x a; x b]) (Math_max [y a; y b]) (Math_max [z a; z b]).

Record Box3 := mkBox3 { min : Vector3; max : Vector3 }.

(** [new Box3()]: the empty box, min = +inf, max = -inf. *)
Definition emptyBox : Box3 :=
  mkBox3 (setScalar infinity) (setScalar neg_infinity).

Definition isEmpty (b : Box3) : bool :=
  (x (max b) <? x (min b)) || (y (max b) <? y (min b))
  || (z (max b) <? z (min b)).

Definition getCenter (b : Box3) : Vector3 :=
  if isEmpty b then zeroVector
  else multiplyScalar (addVectors (min b) (max b)) 0.5.

Definition getSize (b : Box3) : Vector3 :=
  if isEmpty b then zeroVector else sub (max b) (min b).

(** The root object of a loaded asset, as far as the loader touches it:
    its [position], its [scale] and the bounding box of its content in
    the root's own frame (the root of a glTF scene carries no
    rotation).  A point [p] of the content appears in the world at
    [position + scale * p]. *)
Record Object3D := mkObject3D {
  o_position : Vector3;
  o_scale : Vector3;
  o_content : Box3
}.

Definition toWorld (o : Object3D) (p : Vector3) : Vector3 :=
  mkVector3 (x (o_position o) + x (o_scale o) * x p)
            (y (o_position o) + y (o_scale o) * y p)
            (z (o_position o) + z (o_scale o) * z p).

(** [new Box3().setFromObject(o)]: the world-space box of the content;
    an empty content leaves the box empty, otherwise the transformed
    corners are merged with min / max. *)
Definition setFromObject (o : Object3D) : Box3 :=
  if isEmpty (o_content o) then emptyBox
  else
    let a := toWorld o (min (o_content o)) in
    let b := toWorld o (max (o_content o)) in
    mkBox3 (vmin a b) (vmax a b).

(** The orientation that [camera.lookAt(target)] gives a camera placed
    at [eye]: three.js builds it from [eye], [target] and the fixed up
    vector, so the pair determines it. *)
Record Orientation := mkOrientation { eye : Vector3; target : Vector3 }.

Record Camera := mkCamera {
  cam_position : Vector3;
  cam_orientation : Orientation
}.

Definition lookAt (c : Camera) (t : Vector3) : Camera :=
  mkCamera (cam_position c) (mkOrientation (cam_position c) t).

Definition setPosition (c : Camera) (p : Vector3) : Camera :=
  mkCamera p (cam_orientation c).

End THREE.

(** ** Pointer events of @react-three/fiber

    A click is delivered to the objects under the pointer, nearest first.
    Each handler receives the event; delivery to the objects behind stops
    as soon as a handler has called [stopPropagation] (the dispatch loop
    of the library breaks when the event's [stopped] flag is set). *)
Module R3F.

Record ThreeEvent := mkEvent { stopped : bool }.

Definition freshEvent : ThreeEvent := mkEvent false.

Definition stopPropagation (e : ThreeEvent) : ThreeEvent := mkEvent true.

Section Dispatch.
Variable St : Type.

(** A click handler: it sees the event and updates the state owned
    by the scene root. *)
Definition Handler := ThreeEvent -> St -> ThreeEvent * St.

(** [hits]: indices of the markers under the pointer, nearest first.
    The result carries the indices whose handler ran, in order. *)
Fixpoint deliver (onClick : nat -> Handler) (hits : list nat)
         (e : ThreeEvent) (s : St) : list nat * St :=
  match hits with
  | [] => ([], s)
  | i :: behind =>
      let '(e', s') := onClick i e s in
      if stopped e' then ([i], s')
      else
        let '(ran, s'') := deliver onClick behind e' s' in
        (i :: ran, s'')
  end.

Definition click (onClick : nat -> Handler) (hits : list nat) (s : St)
  : list nat * St :=
  deliver onClick hits freshEvent s.
End Dispatch.

Arguments deliver {St} onClick hits e s.
Arguments click {St} onClick hits s.

End R3F.

(** A marker position is a three-element array literal in every variant. *)
Definition Array3 : Type := (JS.number * JS.number * JS.number)%type.
Definition at0 (a : Array3) : JS.number := fst (fst a).
Definition at1 (a : Array3) : JS.number := snd (fst a).
Definition at2 (a : Array3) : JS.number := snd a.

Record Content := mkContent {
  title : string;
  description : string;
  specs : list string
}.

Record Marker := mkMarker {
  position : Array3;
  label : string;
  content : Content
}.

(** The window and navigator properties the device probe reads.
    [hardwareConcurrency] is absent in some browsers. *)
Record Window := mkWindow {
  innerWidth : JS.number;
  devicePixelRatio : JS.number;
  hardwareConcurrency : option JS.number
}.

(** ** src/src/App.jsx *)
Module AppJsx.
Import JS THREE.

(** [selectedPoint]: the object [{ position, label, point }] stored by
    [handlePointClick]. *)
Record Selected := mkSelected {
  sel_position : Array3;
  sel_label : string;
  sel_point : Marker
}.

(** The [useState] cells of [App] that the handlers write. *)
Record State := mkState {
  cameraTarget : option Vector3;
  cameraLookAt : option Vector3;
  selectedPoint : option Selected
}.

Definition initialState : State := mkState None None None.

Definition glowingPoints : list Marker :=
  [ mkMarker (2, 3, -2) "Point A"
      (mkContent "Master Bedroom"
         "Spacious master bedroom with premium furnishings and natural lighting."
         ["3.5m x 4.2m"; "King bed"; "Ensuite bathroom"]%string);
    mkMarker (-3, 2, 1) "Point B"
      (mkContent "Living Room"
         "Modern living area with comfortable seating and entertainment setup."
         ["5m x 6m"; "Premium sofa";
          ("65" ++ String (Ascii.ascii_of_nat 34) " Smart TV")]%string);
    mkMarker (1, -1, 3) "Point C"
      (mkContent "Kitchen"
         "Contemporary kitchen with modern appliances and ample storage."
         ["3m x 4m"; "Stainless steel appliances"; "Granite counters"]%string);
    mkMarker (-2, 0, -3) "Point D"
      (mkContent "Bathroom"
         "Luxurious bathroom with spa-like amenities."
         ["2.5m x 3m"; "Jacuzzi tub"; "Rainfall shower"]%string) ].

(** [handlePointClick(position, label, point)] *)
Definition handlePointClick (position : Array3) (label : string)
           (point : Marker) (s : State) : State :=
  let direction :=
    normalize (mkVector3 (at0 position) (at1 position) (at2 position)) in
  let cameraPos :=
    mkVector3 (at0 position + x direction * 5)
              (at1 position + y direction * 5)
              (at2 position + z direction * 5) in
  mkState (Some cameraPos)
          (Some (mkVector3 (at0 position) (at1 position) (at2 position)))
          (Some (mkSelected position label point)).

Definition handleResetCamera (s : State) : State :=
  mkState (Some (mkVector3 15 12 15)) (Some (mkVector3 0 0 0)) None.

(** The close buttons of the panel: [() => setSelectedPoint(null)]. *)
Definition closePanel (s : State) : State :=
  mkState (cameraTarget s) (cameraLookAt s) None.

(** [GlowingPoint]'s [onClick]: [() => onPointClick(position, label, point)],
    where [App] passes [position = point.position], [label = point.label]
    and [onPointClick = handlePointClick].  The handler ignores the event. *)
Definition GlowingPoint_onClick (point : Marker) : R3F.Handler State :=
  fun e s => (e, handlePointClick (position point) (label point) point s).

(** The handler of the marker rendered at [index]; an index outside the
    list has no marker, hence no handler effect. *)
Definition marker_onClick (index : nat) : R3F.Handler State :=
  match nth_error glowingPoints index with
  | Some point => GlowingPoint_onClick point
  | None => fun e s => (e, s)
  end.

(** [isMobile]: [useState(window.innerWidth <= 768)]. *)
Definition isMobile_initial (w : Window) : bool := innerWidth w <=? 768.

(** [handleResize]: [setIsMobile(window.innerWidth <= 768)]. *)
Definition handleResize (w : Window) (isMobile : bool) : bool :=
  innerWidth w <=? 768.

(** *** CameraController *)
Record Animation := mkAnimation {
  startPosition : option Vector3;
  startLookAt : option Vector3;
  progress : number;
  isAnimating : bool
}.

Definition initialAnimation : Animation := mkAnimation None None 0 false.

(** The [useEffect] that runs when [targetPosition] or [targetLookAt]
    changes. *)
Definition CameraController_effect (targetPosition targetLookAt : option Vector3)
           (camera : Camera) (animation : Animation) : Animation :=
  match targetPosition, targetLookAt with
  | Some _, Some _ =>
      mkAnimation (Some (cam_position camera)) (Some (mkVector3 0 0 0)) 0 true
  | _, _ => animation
  end.

Section Frame.
Variable Math_pow : number -> number -> number.

Definition easeInOutCubic (t : number) : number :=
  if t <? 0.5 then 4 * t * t * t else 1 - Math_pow (-2 * t + 2) 3 / 2.

(** The [useFrame] callback.  [None] stands for the TypeError raised when
    a property of [null] is read. *)
Definition CameraController_frame (targetPosition targetLookAt : option Vector3)
           (st : Animation * Camera) : option (Animation * Camera) :=
  let '(animation, camera) := st in
  if negb (isAnimating animation) then Some st
  else
    let progress' := progress animation + 0.004 in
    if 1 <=? progress' then
      match targetPosition, targetLookAt with
      | Some tp, Some tl =>
          Some (mkAnimation (startPosition animation) (startLookAt animation)
                            1 false,
                lookAt (setPosition camera tp) tl)
      | _, _ => None
      end
    else
      let eased := easeInOutCubic progress' in
      match startPosition animation, startLookAt animation,
            targetPosition, targetLookAt with
      | Some sp, Some sl, Some tp, Some tl =>
          let camera' := setPosition camera (lerpVectors sp tp eased) in
          let currentLookAt := lerpVectors sl tl eased in
          Some (mkAnimation (startPosition animation) (startLookAt animation)
                            progress' true,
                lookAt camera' currentLookAt)
      | _, _, _, _ => None
      end.

(** [n] consecutive frames with the same props. *)
Fixpoint frames (n : nat) (targetPosition targetLookAt : option Vector3)
         (st : Animation * Camera) : option (Animation * Camera) :=
  match n with
  | O => Some st
  | S k =>
      match frames k targetPosition targetLookAt st with
      | Some st' => CameraController_frame targetPosition targetLookAt st'
      | None => None
      end
  end.
End Frame.

(** *** Model: the [useEffect] that fits the loaded scene *)
Definition Model_maxDim (scene : Object3D) : number :=
  let size := getSize (setFromObject scene) in
  Math_max [x size; y size; z size].

(** [const scale = 10 / maxDim] *)
Definition Model_scale (scene : Object3D) : number :=
  10 / Model_maxDim scene.

(** [scene.position.sub(center); scene.scale.multiplyScalar(scale)].  The
    traversal that follows only sets shadow flags. *)
Definition Model_effect (scene : Object3D) : Object3D :=
  let box := setFromObject scene in
  let center := getCenter box in
  mkObject3D (sub (o_position scene) center)
             (multiplyScalar (o_scale scene) (Model_scale scene))
             (o_content scene).

(** *** The user's actions on the scene root *)
Inductive UIEvent :=
| ClickMarker (point : Marker)
| ResetCamera
| ClosePanel.

Definition step (s : State) (ev : UIEvent) : State :=
  match ev with
  | ClickMarker point => snd (GlowingPoint_onClick point R3F.freshEvent s)
  | ResetCamera => handleResetCamera s
  | ClosePanel => closePanel s
  end.

Definition run (evs : list UIEvent) (s : State) : State :=
  fold_left step evs s.

(** The markers the panel shows as selected. *)
Definition selectedMarkers (s : State) : list Marker :=
  match selectedPoint s with
  | Some sel => [sel_point sel]
  | None => []
  end.

(** [isMobile] after the initial render in [w0] and one resize event per
    window state of [ws], oldest first. *)
Definition isMobile_after (w0 : Window) (ws : list Window) : bool :=
  fold_left (fun b w => handleResize w b) ws (isMobile_initial w0).

(** *** The panel *)

(** [selectedPoint && <div> ... selectedPoint.point.content ... </div>]:
    the content the panel shows, [None] when no panel is rendered. *)
Definition panel (s : State) : option Content :=
  option_map (fun sel => content (sel_point sel)) (selectedPoint s).

(** *** GlowingPoint: hover state and the document cursor

    Every marker keeps its own [hovered] cell; all of them write the one
    [document.body.style.cursor]. *)
Record Hover := mkHover {
  hovered : nat -> bool;
  cursor : string
}.

(** After the first render: nothing hovered, and each marker's effect has
    set the cursor to "default". *)
Definition initialHover : Hover := mkHover (fun _ => false) "default".

(** [handleCursor] *)
Definition handleCursor (isHovered : bool) : string :=
  if isHovered then "pointer"%string else "default"%string.

(** [setHovered(b)] on marker [i].  Setting the value the cell already
    holds renders nothing; otherwise the effect of that marker runs again:
    first its cleanup (cursor "default"), then [handleCursor]. *)
Definition setHovered (i : nat) (b : bool) (h : Hover) : Hover :=
  if Bool.eqb (hovered h i) b then h
  else
    mkHover (fun j => if Nat.eqb j i then b else hovered h j)
            (handleCursor b).

Inductive PointerEvent :=
| PointerEnter (i : nat)
| PointerLeave (i : nat)
| Unmount (i : nat).

(** [onPointerEnter], [onPointerLeave], and the cleanup that runs when
    the marker is removed. *)
Definition pointer (h : Hover) (ev : PointerEvent) : Hover :=
  match ev with
  | PointerEnter i => setHovered i true h
  | PointerLeave i => setHovered i false h
  | Unmount i =>
      mkHover (fun j => if Nat.eqb j i then false else hovered h j) "default"
  end.

Definition pointers (evs : list PointerEvent) (h : Hover) : Hover :=
  fold_left pointer evs h.

(** *** The scene as a whole: state cells, animation record, camera *)
Record Scene := mkScene {
  ui : State;
  animation : Animation;
  camera : Camera
}.

(** [camera={{ position: [15, 12, 15], fov: 50 }}]; the canvas aims a
    camera without rotation at the origin. *)
Definition initialScene : Scene :=
  mkScene initialState initialAnimation
          (mkCamera (mkVector3 15 12 15)
                    (mkOrientation (mkVector3 15 12 15) (mkVector3 0 0 0))).

Inductive Action :=
| UI (ev : UIEvent)
| Frame.

(** Whether an action stores new vector objects in [cameraTarget] and
    [cameraLookAt]; the effect of [CameraController] runs again exactly
    then. *)
Definition replacesTargets (ev : UIEvent) : bool :=
  match ev with
  | ClickMarker _ => true
  | ResetCamera => true
  | ClosePanel => false
  end.

Section Scene.
Variable Math_pow : number -> number -> number.

Definition act (sc : Scene) (a : Action) : option Scene :=
  match a with
  | UI ev =>
      let ui' := step (ui sc) ev in
      let animation' :=
        if replacesTargets ev
        then CameraController_effect (cameraTarget ui') (cameraLookAt ui')
               (camera sc) (animation sc)
        else animation sc in
      Some (mkScene ui' animation' (camera sc))
  | Frame =>
      match CameraController_frame Math_pow (cameraTarget (ui sc))
              (cameraLookAt (ui sc)) (animation sc, camera sc) with
      | Some (animation', camera') => Some (mkScene (ui sc) animation' camera')
      | None => None
      end
  end.

Fixpoint perform (acts : list Action) (sc : Scene) : option Scene :=
  match acts with
  | [] => Some sc
  | a :: rest =>
      match act sc a with
      | Some sc' => perform rest sc'
      | None => None
      end
  end.
End Scene.

(** How many frames a list of actions contains. *)
Definition frameCount (acts : list Action) : nat :=
  List.length (filter (fun a => match a with Frame => true | UI _ => false end)
                      acts).

(** Actions that leave the targets alone: frames and closing the panel. *)
Definition keepsTargets (a : Action) : bool :=
  match a with
  | Frame => true
  | UI ev => negb (replacesTargets ev)
  end.

End AppJsx.

(** ** src/unnamed/part_000 *)
Module Part000.
Import JS THREE.

(** *** useDevicePerformance *)
Record DevicePerformance := mkDevicePerformance {
  isMobile : bool;
  lowPower : bool
}.

(** The two [useState] initial values. *)
Definition useDevicePerformance_initial (w : Window) : DevicePerformance :=
  mkDevicePerformance (innerWidth w <=? 768) false.

(** [navigator.hardwareConcurrency <= 2]; an absent property is
    [undefined], which compares as NaN. *)
Definition fewCores (w : Window) : bool :=
  match hardwareConcurrency w with
  | Some n => n <=? 2
  | None => false
  end.

(** [dpr < 1 || dpr >= 2.5 || navigator.hardwareConcurrency <= 2] with
    [dpr = window.devicePixelRatio || 1]. *)
Definition lowPowerHeuristic (w : Window) : bool :=
  let dpr := or_else (devicePixelRatio w) 1 in
  (dpr <? 1) || (2.5 <=? dpr) || fewCores w.

(** The body of the mount effect (it also registers [onResize]). *)
Definition useDevicePerformance_mount (w : Window) (d : DevicePerformance)
  : DevicePerformance :=
  mkDevicePerformance (isMobile d) (lowPowerHeuristic w).

(** [onResize]: [setIsMobile(window.innerWidth <= 768)]. *)
Definition onResize (w : Window) (d : DevicePerformance) : DevicePerformance :=
  mkDevicePerformance (innerWidth w <=? 768) (lowPower d).

(** The profile after mounting in [w0] and one resize event per window
    state of [ws], oldest first. *)
Definition useDevicePerformance (w0 : Window) (ws : list Window)
  : DevicePerformance :=
  fold_left (fun d w => onResize w d) ws
            (useDevicePerformance_mount w0 (useDevicePerformance_initial w0)).

(** *** Scene root *)
Record State := mkState {
  cameraTarget : option Vector3;
  cameraLookAt : option Vector3;
  selectedIndex : option nat
}.

Definition initialState : State := mkState None None None.

Definition glowingPoints : list Marker :=
  [ mkMarker (2, 3, -2) "Point A"
      (mkContent "Master Bedroom" "Spacious master bedroom..."
         ["3.5m x 4.2m"; "King bed"]%string);
    mkMarker (-3, 2, 1) "Point B"
      (mkContent "Living Room" "Modern living area..."
         ["5m x 6m"; "Premium sofa"]%string);
    mkMarker (1, -1, 3) "Point C"
      (mkContent "Kitchen" "Contemporary kitchen..." ["3m x 4m"]%string);
    mkMarker (-2, 0, -3) "Point D"
      (mkContent "Bathroom" "Luxurious bathroom..." ["2.5m x 3m"]%string) ].

(** [handlePointClick(pos, idx)] *)
Definition handlePointClick (pos : Array3) (idx : nat) (s : State) : State :=
  let dir := normalize (mkVector3 (at0 pos) (at1 pos) (at2 pos)) in
  let camPos :=
    mkVector3 (at0 pos + x dir * 4.2)
              (at1 pos + y dir * 4.2)
              (at2 pos + z dir * 4.2) in
  mkState (Some camPos)
          (Some (mkVector3 (at0 pos) (at1 pos) (at2 pos)))
          (Some idx).

Definition resetCamera (s : State) : State :=
  mkState (Some (mkVector3 14 10 14)) (Some (mkVector3 0 0 0)) None.

(** The close button of the panel: [() => setSelectedIndex(null)]. *)
Definition closePanel (s : State) : State :=
  mkState (cameraTarget s) (cameraLookAt s) None.

(** [GlowingPoint]'s [onClick]:
    [(e) => { e.stopPropagation(); onPointClick && onPointClick(position) }]
    with the [onPointClick] that [App] passes for the marker at index [i]:
    [() => handlePointClick(p.position, i)]. *)
Definition GlowingPoint_onClick (p : Marker) (i : nat) : R3F.Handler State :=
  fun e s => (R3F.stopPropagation e, handlePointClick (position p) i s).

Definition marker_onClick (index : nat) : R3F.Handler State :=
  match nth_error glowingPoints index with
  | Some p => GlowingPoint_onClick p index
  | None => fun e s => (e, s)
  end.

(** *** CameraController *)
Record Ref := mkRef {
  progress : number;
  fromPos : Vector3;
  fromLookAt : Vector3
}.

Definition initialRef : Ref := mkRef 1 zeroVector zeroVector.

Definition CameraController_effect (targetPos targetLookAt : option Vector3)
           (camera : Camera) (r : Ref) : Ref :=
  match targetPos, targetLookAt with
  | Some _, Some _ => mkRef 0 (cam_position camera) (mkVector3 0 0 0)
  | _, _ => r
  end.

Section Frame.
Variable Math_cos : number -> number.

(** [(1 - Math.cos(progress * Math.PI)) / 2] *)
Definition eased (progress : number) : number :=
  (1 - Math_cos (progress * Math_PI)) / 2.

(** The [useFrame] callback. *)
Definition CameraController_frame (targetPos targetLookAt : option Vector3)
           (st : Ref * Camera) : Ref * Camera :=
  let '(r, camera) := st in
  match targetPos, targetLookAt with
  | Some tp, Some tl =>
      if 1 <=? progress r then st
      else
        let progress' := Math_min [1; progress r + 0.03] in
        let e := eased progress' in
        let camera' := setPosition camera (lerpVectors (fromPos r) tp e) in
        (mkRef progress' (fromPos r) (fromLookAt r),
         lookAt camera' (lerpVectors (fromLookAt r) tl e))
  | _, _ => st
  end.

Fixpoint frames (n : nat) (targetPos targetLookAt : option Vector3)
         (st : Ref * Camera) : Ref * Camera :=
  match n with
  | O => st
  | S k => CameraController_frame targetPos targetLookAt
             (frames k targetPos targetLookAt st)
  end.
End Frame.

(** *** Model *)
Definition Model_maxDim (scene : Object3D) : number :=
  let size := getSize (setFromObject scene) in
  Math_max [x size; y size; z size].

(** [const scale = maxDim > 0 ? 6 / maxDim : 1] *)
Definition Model_scale (scene : Object3D) : number :=
  let maxDim := Model_maxDim scene in
  if 0 <? maxDim then 6 / maxDim else 1.

(** [scene.scale.setScalar(scale);
     scene.position.sub(center.multiplyScalar(scale))].  The traversal
    that follows only sets shadow flags and clamps roughness. *)
Definition Model_effect (scene : Object3D) : Object3D :=
  let box := setFromObject scene in
  let scale := Model_scale scene in
  let center := getCenter box in
  mkObject3D (sub (o_position scene) (multiplyScalar center scale))
             (setScalar scale)
             (o_content scene).

(** *** The user's actions on the scene root *)
Inductive UIEvent :=
| ClickMarker (p : Marker) (i : nat)
| ResetCamera
| ClosePanel.

Definition step (s : State) (ev : UIEvent) : State :=
  match ev with
  | ClickMarker p i => snd (GlowingPoint_onClick p i R3F.freshEvent s)
  | ResetCamera => resetCamera s
  | ClosePanel => closePanel s
  end.

Definition run (evs : list UIEvent) (s : State) : State :=
  fold_left step evs s.

(** Whether the marker at index [i] is the selected one
    ([selectedIndex === i]). *)
Definition isSelected (s : State) (i : nat) : bool :=
  match selectedIndex s with
  | Some j => Nat.eqb j i
  | None => false
  end.

(** How many of the first [n] markers are selected. *)
Definition selectedCount (s : State) (n : nat) : nat :=
  List.length (filter (isSelected s) (seq 0 n)).

(** *** The panel *)
Inductive PanelView :=
| Hidden
| Shown (c : Content)
| RenderError.

(** [selectedIndex !== null && <div> ... glowingPoints[selectedIndex].content
    ... </div>]; reading [.content] of a missing element raises. *)
Definition panel (s : State) : PanelView :=
  match selectedIndex s with
  | None => Hidden
  | Some i =>
      match nth_error glowingPoints i with
      | Some m => Shown (content m)
      | None => RenderError
      end
  end.

(** A click that a rendered marker can produce: [App] renders one
    [GlowingPoint] per element of [glowingPoints], with its index. *)
Definition rendered (ev : UIEvent) : Prop :=
  match ev with
  | ClickMarker p i => nth_error glowingPoints i = Some p
  | ResetCamera => True
  | ClosePanel => True
  end.

(** *** Rendering quality *)
Record RenderConfig := mkRenderConfig {
  antialias : bool;
  shadows : bool;
  canvasDpr : number
}.

(** [const dpr = Math.min(1.5, window.devicePixelRatio || 1)],
    [useAntialias = !isMobile && !lowPower], [shadows] likewise, and the
    canvas gets [dpr={isMobile || lowPower ? 1 : dpr}]. *)
Definition renderConfig (w : Window) (d : DevicePerformance) : RenderConfig :=
  let dpr := Math_min [1.5; or_else (devicePixelRatio w) 1] in
  let useAntialias := negb (isMobile d) && negb (lowPower d) in
  let shadows := negb (isMobile d) && negb (lowPower d) in
  mkRenderConfig useAntialias shadows
                 (if isMobile d || lowPower d then 1 else dpr).

End Part000.

(** ** src/unnamed/part_001 *)
Module Part001.
Import JS THREE.

(** [const [target, setTarget] = useState(null)] *)
Definition State := option Vector3.

(** [onPointClick]:
    [(point) => setTarget(new THREE.Vector3(point[0] * 1.8, ...))] *)
Definition onPointClick (point : Array3) (s : State) : State :=
  Some (mkVector3 (at0 point * 1.8) (at1 point * 1.8) (at2 point * 1.8)).

(** [const half = size / 2] with [size = 3]. *)
Definition half : number := 3 / 2.

Definition points : list Array3 :=
  [ (half, half, half); (-half, half, half); (half, -half, half);
    (-half, -half, half); (half, half, -half); (-half, half, -half) ].

(** [ClickPoint]'s [onClick]:
    [(e) => { e.stopPropagation(); onClick(position) }] *)
Definition ClickPoint_onClick (pos : Array3) : R3F.Handler State :=
  fun e s => (R3F.stopPropagation e, onPointClick pos s).

Definition marker_onClick (index : nat) : R3F.Handler State :=
  match nth_error points index with
  | Some pos => ClickPoint_onClick pos
  | None => fun e s => (e, s)
  end.

(** [CameraController]'s [useFrame] callback. *)
Definition CameraController_frame (targetPosition : State) (camera : Camera)
  : Camera :=
  match targetPosition with
  | None => camera
  | Some tp =>
      lookAt (setPosition camera (lerp (cam_position camera) tp 0.05))
             (mkVector3 0 0 0)
  end.

End Part001.

(** ** The properties as the specification words them *)
Module Spec.
Import JS THREE.

Definition asVector (p : Array3) : Vector3 :=
  mkVector3 (at0 p) (at1 p) (at2 p).

(** Distance of a marker from the origin. *)
Definition distanceFromOrigin (p : Array3) : number :=
  sqrt (at0 p * at0 p + at1 p * at1 p + at2 p * at2 p).

(** The marker's direction from the origin, scaled to unit length; a
    marker whose distance is zero (or not a number) keeps its
    coordinates. *)
Definition unitDirection (p : Array3) : Vector3 :=
  let n := distanceFromOrigin p in
  let d := if is_nan n || is_zero n then 1 else n in
  mkVector3 (at0 p * (1 / d)) (at1 p * (1 / d)) (at2 p * (1 / d)).

(** The marker position moved [dist] units along that direction. *)
Definition offsetAlongDirection (p : Array3) (dist : number) : Vector3 :=
  let u := unitDirection p in
  mkVector3 (at0 p + x u * dist) (at1 p + y u * dist) (at2 p + z u * dist).

(** The device profile of the contract, on the raw readings. *)
Definition mobileProfile (w : Window) : bool := innerWidth w <=? 768.

Definition lowPowerProfile (pixelRatio : number) (cores : option number)
  : bool :=
  (pixelRatio <? 1) || (2.5 <=? pixelRatio)
  || match cores with Some n => n <=? 2 | None => false end.

(** The pixel ratio the probe works with: 1 when the reading is 0 or not
    a number. *)
Definition effectivePixelRatio (w : Window) : number :=
  if is_nan (devicePixelRatio w) || is_zero (devicePixelRatio w) then 1
  else devicePixelRatio w.

(** The window state a profile should reflect after the resize events
    [ws]: the latest one. *)
Definition latest (w0 : Window) (ws : list Window) : Window := last ws w0.

End Spec.

(** ** Progress of one animation episode, frame by frame

    The progress value does not depend on the camera or on the targets,
    so its course over the frames of an episode can be tabulated. *)
Module Tween.
Import JS.

(** App.jsx: progress and [isAnimating] after one more frame. *)
Definition AppJsx_tick (pa : number * bool) : number * bool :=
  let '(p, active) := pa in
  if negb active then pa
  else if 1 <=? p + 0.004 then (1, false) else (p + 0.004, true).

(** App.jsx: progress and [isAnimating] [n] frames after the effect. *)
Fixpoint AppJsx_progress (n : nat) : number * bool :=
  match n with
  | O => (0, true)
  | S k => AppJsx_tick (AppJsx_progress k)
  end.

(** part_000: progress after one more frame. *)
Definition Part000_tick (p : number) : number :=
  if 1 <=? p then p else Math_min [1; p + 0.03].

Fixpoint Part000_progress (n : nat) : number :=
  match n with
  | O => 0
  | S k => Part000_tick (Part000_progress k)
  end.

(** [f n <= f (n + 1)] for every [n] below [k]. *)
Definition nondecreasing_upto (f : nat -> number) (k : nat) : bool :=
  forallb (fun n => f n <=? f (S n)) (seq 0 k).

End Tween.

(** ** Concrete scenes used in the evaluations below *)
Module Scenario.
Import JS THREE.

(** The camera as the canvas creates it, at [position] and looking at the
    origin. *)
Definition cameraAt (p : Vector3) : Camera :=
  mkCamera p (mkOrientation p zeroVector).

(** part_000: [camera={{ position: [14, 10, 14] }}]. *)
Definition Part000_camera : Camera := cameraAt (mkVector3 14 10 14).

(** part_000 after a click on "Point A" at (2, 3, -2). *)
Definition Part000_clickedA : Part000.State :=
  Part000.handlePointClick (2, 3, -2) 0 Part000.initialState.

(** A freshly loaded asset: position 0, scale 1. *)
Definition freshAsset (content : Box3) : Object3D :=
  mkObject3D zeroVector (mkVector3 1 1 1) content.

(** An asset filling the cube from (0, 0, 0) to (20, 20, 20). *)
Definition cubeAsset : Object3D :=
  freshAsset (mkBox3 (mkVector3 0 0 0) (mkVector3 20 20 20)).

(** An asset filling the box from (0, 0, 0) to (24, 12, 6). *)
Definition slabAsset : Object3D :=
  freshAsset (mkBox3 (mkVector3 0 0 0) (mkVector3 24 12 6)).

(** An asset whose content is the single point (1, 1, 1). *)
Definition pointAsset : Object3D :=
  freshAsset (mkBox3 (mkVector3 1 1 1) (mkVector3 1 1 1)).

(** An asset without geometry. *)
Definition emptyAsset : Object3D := freshAsset emptyBox.

(** A desktop window, and the same window after the page is zoomed to
    300%, which raises the pixel ratio and fires a resize event. *)
Definition desktop : Window := mkWindow 1920 1 (Some 8).
Definition desktopZoomed : Window := mkWindow 640 3 (Some 8).

(** Whether the camera target computed for a marker lies [dist] units
    from the marker, up to [tol]. *)
Definition targetAtDistance (dist tol : number) (target : option Vector3)
           (m : Marker) : bool :=
  match target with
  | Some t =>
      let d := length (sub t (mkVector3 (at0 (position m)) (at1 (position m))
                                        (at2 (position m)))) in
      (dist - tol <=? d) && (d <=? dist + tol)
  | None => false
  end.

(** An implementation of [Math.cos] is used by the last frame of an
    episode only at [Math.PI]; this one returns the correctly rounded
    value there. *)
Definition cosAtPi (t : number) : number := -1.

End Scenario.

(** ** Observations on states and event lists *)
Module Observe.

Definition isSet {A : Type} (o : option A) : bool :=
  match o with Some _ => true | None => false end.

(** part_000: the actions that write the camera targets. *)
Definition Part000_replacesTargets (ev : Part000.UIEvent) : bool :=
  match ev with
  | Part000.ClickMarker _ _ => true
  | Part000.ResetCamera => true
  | Part000.ClosePanel => false
  end.

(** The marker rendered at the last of the indices [hits]. *)
Definition AppJsx_markerBehind (hits : list nat) : option Marker :=
  match rev hits with
  | [] => None
  | i :: _ => nth_error AppJsx.glowingPoints i
  end.

(** A list of indices that all name a rendered marker of App.jsx. *)
Definition AppJsx_allRendered (hits : list nat) : bool :=
  forallb (fun i => isSet (nth_error AppJsx.glowingPoints i)) hits.

(** App.jsx: while an animation runs, its start and both targets are
    set. *)
Definition AppJsx_sound (sc : AppJsx.Scene) : Prop :=
  AppJsx.isAnimating (AppJsx.animation sc) = true ->
  isSet (AppJsx.startPosition (AppJsx.animation sc)) = true
  /\ isSet (AppJsx.startLookAt (AppJsx.animation sc)) = true
  /\ isSet (AppJsx.cameraTarget (AppJsx.ui sc)) = true
  /\ isSet (AppJsx.cameraLookAt (AppJsx.ui sc)) = true.

End Observe.

(** * Verification *)

Import JS THREE.

(** ** Numbers and vectors *)

Lemma or_else_truthy (v d : number) :
  ToBoolean d = true -> ToBoolean (or_else v d) = true.
Proof.
  intros Hd. unfold or_else.
  destruct (ToBoolean v) eqn:Hv; [exact Hv | exact Hd].
Qed.

Lemma truthy_not_zero (v : number) : ToBoolean v = true -> is_zero v = false.
Proof.
  unfold ToBoolean. intros H. apply negb_true_iff in H.
  apply orb_false_iff in H. tauto.
Qed.

Lemma truthy_not_nan (v : number) : ToBoolean v = true -> is_nan v = false.
Proof.
  unfold ToBoolean. intros H. apply negb_true_iff in H.
  apply orb_false_iff in H. tauto.
Qed.

(** The divisor [this.length() || 1] of [normalize] is never zero and
    never NaN, whatever the vector. *)
Lemma normalize_divisor_truthy (v : Vector3) :
  ToBoolean (normalize_divisor v) = true.
Proof. unfold normalize_divisor. apply or_else_truthy. reflexivity. Qed.

Lemma normalize_is_unitDirection (p : Array3) :
  normalize (Spec.asVector p) = Spec.unitDirection p.
Proof.
  unfold normalize, divideScalar, multiplyScalar, normalize_divisor, or_else,
    ToBoolean, Spec.unitDirection, Spec.distanceFromOrigin, length,
    Spec.asVector.
  cbn [x y z].
  destruct (is_nan _ || is_zero _); reflexivity.
Qed.

(** ** Marker click and camera reset *)

(** C1: a click on a marker makes it the selected one, sets the look-at
    target to the marker's position and sets the camera target to that
    position moved along its unit direction from the origin by 5 units
    (App.jsx) or 4.2 units (part_000). *)
Theorem C1_marker_click_targets :
  (forall (point : Marker) e (s : AppJsx.State),
      let s' := snd (AppJsx.GlowingPoint_onClick point e s) in
      AppJsx.selectedPoint s'
        = Some (AppJsx.mkSelected (position point) (label point) point)
      /\ AppJsx.cameraLookAt s' = Some (Spec.asVector (position point))
      /\ AppJsx.cameraTarget s'
        = Some (Spec.offsetAlongDirection (position point) 5))
  /\
  (forall (p : Marker) (i : nat) e (s : Part000.State),
      let s' := snd (Part000.GlowingPoint_onClick p i e s) in
      Part000.selectedIndex s' = Some i
      /\ Part000.cameraLookAt s' = Some (Spec.asVector (position p))
      /\ Part000.cameraTarget s'
        = Some (Spec.offsetAlongDirection (position p) 4.2)).
Proof.
  split; intros; subst s'; cbn [snd AppJsx.GlowingPoint_onClick
    Part000.GlowingPoint_onClick].
  - unfold AppJsx.handlePointClick.
    cbn [AppJsx.selectedPoint AppJsx.cameraLookAt AppJsx.cameraTarget].
    fold (Spec.asVector (position point)).
    rewrite normalize_is_unitDirection. repeat split.
  - unfold Part000.handlePointClick.
    cbn [Part000.selectedIndex Part000.cameraLookAt Part000.cameraTarget].
    fold (Spec.asVector (position p)).
    rewrite normalize_is_unitDirection. repeat split.
Qed.

(** The scenario of the specification: the marker at (2, 3, -2). *)
Example click_master_bedroom :
  match nth_error AppJsx.glowingPoints 0 with
  | Some point =>
      let s' := AppJsx.step AppJsx.initialState (AppJsx.ClickMarker point) in
      option_map (fun sel => title (content (AppJsx.sel_point sel)))
                 (AppJsx.selectedPoint s') = Some "Master Bedroom"%string
      /\ AppJsx.cameraLookAt s' = Some (mkVector3 2 3 (-2))
      /\ AppJsx.cameraTarget s'
         = Some (mkVector3 4.4253562503633299 6.6380343755449944
                           (-4.4253562503633299))
  | None => False
  end.
Proof. vm_compute. repeat split. Qed.

(** For the four markers of each variant the camera target lies 5,
    respectively 4.2, units from the marker, to within 1e-14. *)
Example camera_target_distance :
  forallb (fun m =>
             Scenario.targetAtDistance 5 1e-14
               (AppJsx.cameraTarget
                  (AppJsx.step AppJsx.initialState (AppJsx.ClickMarker m))) m)
          AppJsx.glowingPoints = true
  /\ forallb (fun m =>
                Scenario.targetAtDistance 4.2 1e-14
                  (Part000.cameraTarget
                     (Part000.step Part000.initialState
                        (Part000.ClickMarker m 0))) m)
             Part000.glowingPoints = true.
Proof. vm_compute. split; reflexivity. Qed.

(** C5: the reset operation clears the selection and sets the camera
    target to the variant's default position, (15, 12, 15) in App.jsx and
    (14, 10, 14) in part_000, with look-at at the origin, from any state
    and after any sequence of earlier actions. *)
Theorem C5_reset_camera :
  (forall evs (s : AppJsx.State),
      let s' := AppJsx.run (evs ++ [AppJsx.ResetCamera]) s in
      AppJsx.selectedPoint s' = None
      /\ AppJsx.cameraTarget s' = Some (mkVector3 15 12 15)
      /\ AppJsx.cameraLookAt s' = Some (mkVector3 0 0 0))
  /\
  (forall evs (s : Part000.State),
      let s' := Part000.run (evs ++ [Part000.ResetCamera]) s in
      Part000.selectedIndex s' = None
      /\ Part000.cameraTarget s' = Some (mkVector3 14 10 14)
      /\ Part000.cameraLookAt s' = Some (mkVector3 0 0 0)).
Proof.
  split; intros evs s s'; subst s'.
  - unfold AppJsx.run. rewrite fold_left_app. cbn. repeat split.
  - unfold Part000.run. rewrite fold_left_app. cbn. repeat split.
Qed.

(** ** Selection *)

Lemma filter_eqb_seq_above (j start n : nat) :
  j < start -> filter (Nat.eqb j) (seq start n) = [].
Proof.
  revert start. induction n as [|n IH]; intros start Hlt; cbn.
  - reflexivity.
  - destruct (Nat.eqb_spec j start) as [->|_]; [lia|].
    apply IH. lia.
Qed.

Lemma filter_eqb_seq_le1 (j start n : nat) :
  List.length (filter (Nat.eqb j) (seq start n)) <= 1.
Proof.
  revert start. induction n as [|n IH]; intros start; cbn.
  - lia.
  - destruct (Nat.eqb_spec j start) as [->|_].
    + rewrite filter_eqb_seq_above by lia. cbn. lia.
    + apply IH.
Qed.

Lemma Part000_selectedCount_le1 (s : Part000.State) (n : nat) :
  Part000.selectedCount s n <= 1.
Proof.
  unfold Part000.selectedCount, Part000.isSelected.
  destruct (Part000.selectedIndex s) as [j|].
  - apply filter_eqb_seq_le1.
  - induction (seq 0 n); cbn; auto.
Qed.

(** C8: at any time at most one marker is selected, and a click on
    marker B while marker A is selected leaves B as the only selection. *)
Theorem C8_single_selection :
  (forall evs (s : AppJsx.State),
      List.length (AppJsx.selectedMarkers (AppJsx.run evs s)) <= 1)
  /\
  (forall evs (s : AppJsx.State) (a b : Marker),
      let sA := AppJsx.run (evs ++ [AppJsx.ClickMarker a]) s in
      AppJsx.selectedMarkers sA = [a]
      /\ AppJsx.selectedMarkers (AppJsx.step sA (AppJsx.ClickMarker b)) = [b])
  /\
  (forall evs (s : Part000.State) (n : nat),
      Part000.selectedCount (Part000.run evs s) n <= 1)
  /\
  (forall evs (s : Part000.State) (pa pb : Marker) (a b : nat),
      let sA := Part000.run (evs ++ [Part000.ClickMarker pa a]) s in
      let sB := Part000.step sA (Part000.ClickMarker pb b) in
      Part000.selectedIndex sA = Some a
      /\ Part000.selectedIndex sB = Some b
      /\ Part000.isSelected sB a = Nat.eqb b a).
Proof.
  split; [|split; [|split]].
  - intros evs s. unfold AppJsx.selectedMarkers.
    destruct (AppJsx.selectedPoint (AppJsx.run evs s)); cbn; lia.
  - intros evs s a b sA. subst sA.
    unfold AppJsx.run. rewrite fold_left_app. split; reflexivity.
  - intros evs s n. apply Part000_selectedCount_le1.
  - intros evs s pa pb a b sA sB. subst sA sB.
    unfold Part000.run. rewrite fold_left_app. repeat split.
Qed.

(** ** Click propagation *)

(** X5, part_000: the handler of the nearest marker stops the event, so
    no marker behind it is reached: only that handler runs, and the state
    is the one it leaves. *)
Lemma Part000_click_stops_at_first (i : nat) (behind : list nat)
      (s : Part000.State) (p : Marker) :
  nth_error Part000.glowingPoints i = Some p ->
  R3F.click Part000.marker_onClick (i :: behind) s
  = ([i], Part000.handlePointClick (position p) i s).
Proof.
  intros H. unfold R3F.click, Part000.marker_onClick. cbn [R3F.deliver].
  rewrite H. reflexivity.
Qed.

(** X6, part_001: likewise, the handler of the nearest point stops the
    event; only it runs, and the target is the one it sets. *)
Lemma Part001_click_stops_at_first (i : nat) (behind : list nat)
      (s : Part001.State) (pos : Array3) :
  nth_error Part001.points i = Some pos ->
  R3F.click Part001.marker_onClick (i :: behind) s
  = ([i], Part001.onPointClick pos s).
Proof.
  intros H. unfold R3F.click, Part001.marker_onClick. cbn [R3F.deliver].
  rewrite H. reflexivity.
Qed.

(** App.jsx: no handler stops the event, so every marker under the
    pointer is reached, in order. *)
Lemma AppJsx_click_reaches_all (hits : list nat) (e : R3F.ThreeEvent)
      (s : AppJsx.State) :
  R3F.stopped e = false ->
  fst (R3F.deliver AppJsx.marker_onClick hits e s) = hits.
Proof.
  revert s. induction hits as [|i behind IH]; intros s He; cbn.
  - reflexivity.
  - unfold AppJsx.marker_onClick at 1.
    destruct (nth_error AppJsx.glowingPoints i) as [point|];
      cbn; rewrite He;
      match goal with
      | |- context [R3F.deliver _ behind e ?s'] =>
          specialize (IH s' He);
          destruct (R3F.deliver AppJsx.marker_onClick behind e s')
      end; cbn in *; congruence.
Qed.

(** C6: in App.jsx a click whose ray crosses marker 0 and then marker 1
    runs the click callback of both, and the marker left selected is the
    one behind. *)
Theorem C6_AppJsx_click_reaches_marker_behind :
  forall s : AppJsx.State,
    fst (R3F.click AppJsx.marker_onClick [0; 1]%nat s) = [0; 1]%nat
    /\ option_map AppJsx.sel_label
         (AppJsx.selectedPoint (snd (R3F.click AppJsx.marker_onClick [0; 1]%nat s)))
       = Some "Point B"%string.
Proof. intros s. split; reflexivity. Qed.

(** ** The marker at the origin *)

(** C10: the click handler needs no division by zero: the divisor of
    the normalisation is never zero, the zero vector normalises to the
    zero vector, and for a marker at (0, 0, 0) the camera target is the
    marker position itself, in both variants. *)
Theorem C10_click_at_origin :
  (forall v : Vector3,
      is_zero (normalize_divisor v) = false
      /\ is_nan (normalize_divisor v) = false)
  /\ normalize zeroVector = zeroVector
  /\ (forall label point (s : AppJsx.State),
        AppJsx.cameraTarget (AppJsx.handlePointClick (0, 0, 0) label point s)
        = Some (Spec.asVector (0, 0, 0)))
  /\ (forall idx (s : Part000.State),
        Part000.cameraTarget (Part000.handlePointClick (0, 0, 0) idx s)
        = Some (Spec.asVector (0, 0, 0))).
Proof.
  split; [|repeat split].
  intros v. pose proof (normalize_divisor_truthy v) as H.
  split; [apply truthy_not_zero | apply truthy_not_nan]; exact H.
Qed.

(** ** Camera tween *)

Section AppJsxTween.
Variable Math_pow : number -> number -> number.
Variables (tp tl sp sl : Vector3).

Lemma AppJsx_frames_S (n : nat) (st : AppJsx.Animation * Camera) :
  AppJsx.frames Math_pow (S n) (Some tp) (Some tl) st
  = match AppJsx.frames Math_pow n (Some tp) (Some tl) st with
    | Some st' => AppJsx.CameraController_frame Math_pow (Some tp) (Some tl) st'
    | None => None
    end.
Proof. reflexivity. Qed.

(** Within an episode no frame raises, and the animation record follows
    the tabulated course. *)
Lemma AppJsx_frames_trace (camera : Camera) (n : nat) :
  exists camera',
    AppJsx.frames Math_pow n (Some tp) (Some tl)
      (AppJsx.mkAnimation (Some sp) (Some sl) 0 true, camera)
    = Some (AppJsx.mkAnimation (Some sp) (Some sl)
              (fst (Tween.AppJsx_progress n)) (snd (Tween.AppJsx_progress n)),
            camera').
Proof.
  induction n as [|n [camera' IH]].
  - exists camera. reflexivity.
  - rewrite AppJsx_frames_S, IH.
    change (Tween.AppJsx_progress (S n))
      with (Tween.AppJsx_tick (Tween.AppJsx_progress n)).
    destruct (Tween.AppJsx_progress n) as [p active].
    unfold AppJsx.CameraController_frame, Tween.AppJsx_tick.
    cbn [fst snd AppJsx.isAnimating AppJsx.progress AppJsx.startPosition
         AppJsx.startLookAt].
    destruct active; cbn [negb].
    + destruct (1 <=? p + 0.004); eexists; reflexivity.
    + eexists; reflexivity.
Qed.
End AppJsxTween.

Lemma AppJsx_progress_249 :
  Tween.AppJsx_progress 249 = (0.99600000000000077, true).
Proof. vm_compute. reflexivity. Qed.

Lemma AppJsx_progress_finished (n : nat) :
  250 <= n -> Tween.AppJsx_progress n = (1, false).
Proof.
  induction 1 as [|m _ IH].
  - vm_compute. reflexivity.
  - cbn [Tween.AppJsx_progress]. rewrite IH. reflexivity.
Qed.

Lemma AppJsx_progress_nondecreasing (n : nat) :
  (fst (Tween.AppJsx_progress n) <=? fst (Tween.AppJsx_progress (S n))) = true.
Proof.
  destruct (Nat.lt_ge_cases n 250) as [Hlt|Hge].
  - assert (Hall : Tween.nondecreasing_upto
                     (fun n => fst (Tween.AppJsx_progress n)) 250 = true)
      by (vm_compute; reflexivity).
    unfold Tween.nondecreasing_upto in Hall.
    rewrite forallb_forall in Hall. apply Hall. apply in_seq. lia.
  - rewrite (AppJsx_progress_finished n Hge).
    rewrite (AppJsx_progress_finished (S n)) by lia. reflexivity.
Qed.

Lemma Part000_progress_33 :
  Tween.Part000_progress 33 = 0.99000000000000066.
Proof. vm_compute. reflexivity. Qed.

Lemma Part000_progress_finished (n : nat) :
  34 <= n -> Tween.Part000_progress n = 1.
Proof.
  induction 1 as [|m _ IH].
  - vm_compute. reflexivity.
  - cbn [Tween.Part000_progress]. rewrite IH. reflexivity.
Qed.

Lemma Part000_progress_nondecreasing (n : nat) :
  (Tween.Part000_progress n <=? Tween.Part000_progress (S n)) = true.
Proof.
  destruct (Nat.lt_ge_cases n 34) as [Hlt|Hge].
  - assert (Hall : Tween.nondecreasing_upto Tween.Part000_progress 34 = true)
      by (vm_compute; reflexivity).
    unfold Tween.nondecreasing_upto in Hall.
    rewrite forallb_forall in Hall. apply Hall. apply in_seq. lia.
  - rewrite (Part000_progress_finished n Hge).
    rewrite (Part000_progress_finished (S n)) by lia. reflexivity.
Qed.

Section Part000Tween.
Variable Math_cos : number -> number.
Variables (tp tl from fromLook : Vector3).

Lemma Part000_frames_S (n : nat) (st : Part000.Ref * Camera) :
  Part000.frames Math_cos (S n) (Some tp) (Some tl) st
  = Part000.CameraController_frame Math_cos (Some tp) (Some tl)
      (Part000.frames Math_cos n (Some tp) (Some tl) st).
Proof. reflexivity. Qed.

Lemma Part000_frames_trace (camera : Camera) (n : nat) :
  exists camera',
    Part000.frames Math_cos n (Some tp) (Some tl)
      (Part000.mkRef 0 from fromLook, camera)
    = (Part000.mkRef (Tween.Part000_progress n) from fromLook, camera').
Proof.
  induction n as [|n [camera' IH]].
  - exists camera. reflexivity.
  - rewrite Part000_frames_S, IH.
    change (Tween.Part000_progress (S n))
      with (Tween.Part000_tick (Tween.Part000_progress n)).
    unfold Part000.CameraController_frame, Tween.Part000_tick.
    cbn [Part000.progress Part000.fromPos Part000.fromLookAt].
    destruct (1 <=? Tween.Part000_progress n); eexists; reflexivity.
Qed.

(** The last frame of an episode: progress becomes 1 and the camera is
    placed by the interpolation at the eased value of 1. *)
Lemma Part000_last_frame (camera : Camera) :
  exists camera',
    Part000.frames Math_cos 34 (Some tp) (Some tl)
      (Part000.mkRef 0 from fromLook, camera)
    = (Part000.mkRef 1 from fromLook,
       lookAt (setPosition camera'
                 (lerpVectors from tp (Part000.eased Math_cos 1)))
              (lerpVectors fromLook tl (Part000.eased Math_cos 1))).
Proof.
  destruct (Part000_frames_trace camera 33) as [camera' H].
  exists camera'.
  rewrite (Part000_frames_S 33), H, Part000_progress_33.
  unfold Part000.CameraController_frame.
  cbn [Part000.progress Part000.fromPos Part000.fromLookAt].
  replace (1 <=? 0.99000000000000066) with false by (vm_compute; reflexivity).
  replace (Math_min [1; 0.99000000000000066 + 0.03]) with 1
    by (vm_compute; reflexivity).
  reflexivity.
Qed.
End Part000Tween.

(** App.jsx: the frame on which progress reaches 1 puts the camera on the
    target, with the orientation [lookAt] gives from there, and clears
    [isAnimating]; this is frame 250 of the episode. *)
Lemma AppJsx_snaps_to_target (Math_pow : number -> number -> number)
      (tp tl : Vector3) (camera : Camera) (animation : AppJsx.Animation) :
  AppJsx.frames Math_pow 250 (Some tp) (Some tl)
    (AppJsx.CameraController_effect (Some tp) (Some tl) camera animation,
     camera)
  = Some (AppJsx.mkAnimation (Some (cam_position camera))
            (Some (mkVector3 0 0 0)) 1 false,
          mkCamera tp (mkOrientation tp tl)).
Proof.
  cbn [AppJsx.CameraController_effect].
  destruct (AppJsx_frames_trace Math_pow tp tl (cam_position camera)
              (mkVector3 0 0 0) camera 249) as [camera' H].
  rewrite (AppJsx_frames_S Math_pow tp tl 249), H, AppJsx_progress_249.
  unfold AppJsx.CameraController_frame.
  cbn [fst snd AppJsx.isAnimating AppJsx.progress AppJsx.startPosition
       AppJsx.startLookAt negb].
  replace (1 <=? 0.99600000000000077 + 0.004) with true
    by (vm_compute; reflexivity).
  reflexivity.
Qed.

(** App.jsx: once [isAnimating] is cleared a frame changes nothing. *)
Lemma AppJsx_idle_frame (Math_pow : number -> number -> number)
      (targetPosition targetLookAt : option Vector3)
      (animation : AppJsx.Animation) (camera : Camera) :
  AppJsx.isAnimating animation = false ->
  AppJsx.CameraController_frame Math_pow targetPosition targetLookAt
    (animation, camera) = Some (animation, camera).
Proof.
  intros H. unfold AppJsx.CameraController_frame. rewrite H. reflexivity.
Qed.

Lemma AppJsx_stays_on_target (Math_pow : number -> number -> number)
      (tp tl : Vector3) (camera : Camera) (animation : AppJsx.Animation)
      (n : nat) :
  250 <= n ->
  AppJsx.frames Math_pow n (Some tp) (Some tl)
    (AppJsx.CameraController_effect (Some tp) (Some tl) camera animation,
     camera)
  = Some (AppJsx.mkAnimation (Some (cam_position camera))
            (Some (mkVector3 0 0 0)) 1 false,
          mkCamera tp (mkOrientation tp tl)).
Proof.
  induction 1 as [|m _ IH].
  - apply AppJsx_snaps_to_target.
  - rewrite AppJsx_frames_S, IH. apply AppJsx_idle_frame. reflexivity.
Qed.

(** part_000: once progress is 1 a frame changes nothing. *)
Lemma Part000_idle_frame (Math_cos : number -> number)
      (targetPos targetLookAt : option Vector3) (r : Part000.Ref)
      (camera : Camera) :
  (1 <=? Part000.progress r) = true ->
  Part000.CameraController_frame Math_cos targetPos targetLookAt (r, camera)
  = (r, camera).
Proof.
  intros H. unfold Part000.CameraController_frame. rewrite H.
  destruct targetPos, targetLookAt; reflexivity.
Qed.

(** C2: part_000 never copies the target into the camera.  On the frame
    on which progress reaches 1 the position is interpolated at the eased
    value 1, and [from + (target - from) * 1] is rounded: starting at
    (14, 10, 14) and moving to the target of "Point A", the episode ends
    one unit in the last place away from the target in x and z. *)
Theorem C2_part000_last_frame_off_target :
  forall Math_cos : number -> number,
    Math_cos Math_PI = -1 ->
    let tp := Part000.cameraTarget Scenario.Part000_clickedA in
    let tl := Part000.cameraLookAt Scenario.Part000_clickedA in
    let st := Part000.frames Math_cos 34 tp tl
                (Part000.CameraController_effect tp tl
                   Scenario.Part000_camera Part000.initialRef,
                 Scenario.Part000_camera) in
    Part000.progress (fst st) = 1
    /\ tp = Some (mkVector3 4.037299250305197 6.0559488754577959
                            (-4.037299250305197))
    /\ cam_position (snd st)
       = mkVector3 4.0372992503051961 6.0559488754577959
                   (-4.0372992503051961)
    /\ Some (cam_position (snd st)) <> tp
    /\ Part000.frames Math_cos 35 tp tl
         (Part000.CameraController_effect tp tl
            Scenario.Part000_camera Part000.initialRef,
          Scenario.Part000_camera) = st.
Proof.
  intros Math_cos Hcos tp tl.
  assert (Htp : tp = Some (mkVector3 4.037299250305197 6.0559488754577959
                                     (-4.037299250305197)))
    by (vm_compute; reflexivity).
  assert (Htl : tl = Some (mkVector3 2 3 (-2))) by (vm_compute; reflexivity).
  rewrite Htp, Htl. cbn [Part000.CameraController_effect].
  assert (He : Part000.eased Math_cos 1 = 1).
  { unfold Part000.eased.
    replace (1 * Math_PI) with Math_PI by (vm_compute; reflexivity).
    rewrite Hcos. vm_compute. reflexivity. }
  rewrite (Part000_frames_S Math_cos _ _ 34).
  destruct (Part000_last_frame Math_cos
              (mkVector3 4.037299250305197 6.0559488754577959
                         (-4.037299250305197))
              (mkVector3 2 3 (-2))
              (cam_position Scenario.Part000_camera) (mkVector3 0 0 0)
              Scenario.Part000_camera) as [camera' H].
  rewrite H, He.
  cbn [fst snd Part000.progress].
  assert (Hpos :
    cam_position
      (lookAt
         (setPosition camera'
            (lerpVectors (cam_position Scenario.Part000_camera)
               (mkVector3 4.037299250305197 6.0559488754577959
                          (-4.037299250305197)) 1))
         (lerpVectors (mkVector3 0 0 0) (mkVector3 2 3 (-2)) 1))
    = mkVector3 4.0372992503051961 6.0559488754577959
                (-4.0372992503051961)) by (vm_compute; reflexivity).
  rewrite Hpos.
  repeat split.
  intros Heq.
  apply (f_equal (fun o => match o with
                             | Some v => PrimFloat.Leibniz.eqb (x v) 4.037299250305197
                             | None => false
                             end)) in Heq.
    vm_compute in Heq. discriminate.
Qed.

(** The hypothesis of C2's theorem holds of an implementation of
    [Math.cos] that is correctly rounded at [Math.PI]. *)
Lemma C2_part000_last_frame_off_target_witness :
  Scenario.cosAtPi Math_PI = -1
  /\ Some (cam_position
             (snd (Part000.frames Scenario.cosAtPi 34
                     (Part000.cameraTarget Scenario.Part000_clickedA)
                     (Part000.cameraLookAt Scenario.Part000_clickedA)
                     (Part000.CameraController_effect
                        (Part000.cameraTarget Scenario.Part000_clickedA)
                        (Part000.cameraLookAt Scenario.Part000_clickedA)
                        Scenario.Part000_camera Part000.initialRef,
                      Scenario.Part000_camera))))
     <> Part000.cameraTarget Scenario.Part000_clickedA.
Proof.
  split; [reflexivity|].
  apply (C2_part000_last_frame_off_target Scenario.cosAtPi eq_refl).
Defined.

(** C3: assigning a new target resets progress to 0 and records the
    camera's current position as the start of the interpolation, and
    from there progress never decreases from one frame to the next, in
    App.jsx and in part_000. *)
Theorem C3_new_target_restarts_episode :
  (forall (Math_pow : number -> number -> number) (tp tl : Vector3)
          (camera : Camera) (animation : AppJsx.Animation),
      let a := AppJsx.CameraController_effect (Some tp) (Some tl)
                 camera animation in
      AppJsx.progress a = 0
      /\ AppJsx.startPosition a = Some (cam_position camera)
      /\ AppJsx.isAnimating a = true
      /\ forall n, exists st st',
           AppJsx.frames Math_pow n (Some tp) (Some tl) (a, camera) = Some st
           /\ AppJsx.frames Math_pow (S n) (Some tp) (Some tl) (a, camera)
              = Some st'
           /\ (AppJsx.progress (fst st) <=? AppJsx.progress (fst st')) = true)
  /\
  (forall (Math_cos : number -> number) (tp tl : Vector3)
          (camera : Camera) (r : Part000.Ref),
      let r0 := Part000.CameraController_effect (Some tp) (Some tl)
                  camera r in
      Part000.progress r0 = 0
      /\ Part000.fromPos r0 = cam_position camera
      /\ forall n,
           (Part000.progress
              (fst (Part000.frames Math_cos n (Some tp) (Some tl) (r0, camera)))
            <=? Part000.progress
              (fst (Part000.frames Math_cos (S n) (Some tp) (Some tl)
                      (r0, camera)))) = true).
Proof.
  split.
  - intros Math_pow tp tl camera animation a. subst a.
    cbn [AppJsx.CameraController_effect AppJsx.progress AppJsx.startPosition
         AppJsx.isAnimating].
    repeat split. intros n.
    destruct (AppJsx_frames_trace Math_pow tp tl (cam_position camera)
                (mkVector3 0 0 0) camera n) as [c Hn].
    destruct (AppJsx_frames_trace Math_pow tp tl (cam_position camera)
                (mkVector3 0 0 0) camera (S n)) as [c' HSn].
    eexists. eexists. split; [exact Hn|]. split; [exact HSn|].
    cbn [fst AppJsx.progress]. apply AppJsx_progress_nondecreasing.
  - intros Math_cos tp tl camera r r0. subst r0.
    cbn [Part000.CameraController_effect Part000.progress Part000.fromPos].
    repeat split. intros n.
    destruct (Part000_frames_trace Math_cos tp tl (cam_position camera)
                (mkVector3 0 0 0) camera n) as [c Hn].
    destruct (Part000_frames_trace Math_cos tp tl (cam_position camera)
                (mkVector3 0 0 0) camera (S n)) as [c' HSn].
    rewrite Hn, HSn. cbn [fst Part000.progress].
    apply Part000_progress_nondecreasing.
Qed.

(** A target assigned while the camera is still moving: after 100 frames
    towards (4, 0, 0) from the origin the camera is at x = 1.024, and an
    episode towards a new target starts there, not at (4, 0, 0). *)
Example AppJsx_retarget_in_flight (Math_pow : number -> number -> number) :
  let camera := Scenario.cameraAt zeroVector in
  let tp := mkVector3 4 0 0 in
  let a := AppJsx.CameraController_effect (Some tp) (Some zeroVector)
             camera AppJsx.initialAnimation in
  option_map
    (fun st =>
       AppJsx.startPosition
         (AppJsx.CameraController_effect (Some (mkVector3 0 9 0))
            (Some zeroVector) (snd st) (fst st)))
    (AppJsx.frames Math_pow 100 (Some tp) (Some zeroVector) (a, camera))
  = Some (Some (mkVector3 1.0240000000000025 0 0)).
Proof. vm_compute. reflexivity. Qed.

(** ** Asset loader *)

(** part_000 on the cube: largest dimension 6, centre at the origin. *)
Example Part000_fits_cube :
  let fitted := Part000.Model_effect Scenario.cubeAsset in
  getSize (setFromObject fitted) = mkVector3 6 6 6
  /\ getCenter (setFromObject fitted) = mkVector3 0 0 0.
Proof. vm_compute. split; reflexivity. Qed.

(** part_000 on the slab: largest dimension 6, centre at the origin. *)
Example Part000_fits_slab :
  let fitted := Part000.Model_effect Scenario.slabAsset in
  getSize (setFromObject fitted) = mkVector3 6 3 1.5
  /\ getCenter (setFromObject fitted) = mkVector3 0 0 0.
Proof. vm_compute. split; reflexivity. Qed.

(** part_000, the effect run a second time on the scene it has already
    fitted: the box now measures 6, the factor is 1, and [setScalar]
    puts the asset back at its original size. *)
Example Part000_fits_slab_twice :
  let fitted := Part000.Model_effect (Part000.Model_effect Scenario.slabAsset) in
  o_scale fitted = mkVector3 1 1 1
  /\ getSize (setFromObject fitted) = mkVector3 24 12 6.
Proof. vm_compute. split; reflexivity. Qed.

(** C4: App.jsx on a freshly loaded asset filling the cube from
    (0, 0, 0) to (20, 20, 20): the scale is 0.5 and the largest
    dimension becomes 10, but the position is moved by the unscaled
    centre, so the fitted box runs from -10 to 0 and its centre is
    (-5, -5, -5), not the origin. *)
Theorem C4_AppJsx_center_off_origin :
  let fitted := AppJsx.Model_effect Scenario.cubeAsset in
  o_scale fitted = mkVector3 0.5 0.5 0.5
  /\ o_position fitted = mkVector3 (-10) (-10) (-10)
  /\ getSize (setFromObject fitted) = mkVector3 10 10 10
  /\ setFromObject fitted
     = mkBox3 (mkVector3 (-10) (-10) (-10)) (mkVector3 0 0 0)
  /\ getCenter (setFromObject fitted) = mkVector3 (-5) (-5) (-5).
Proof. vm_compute. repeat split. Qed.

(** A number equal to zero is not greater than zero. *)
Lemma zero_not_positive (m : number) : is_zero m = true -> (0 <? m) = false.
Proof.
  unfold is_zero. rewrite FloatAxioms.eqb_spec, FloatAxioms.ltb_spec.
  change (Prim2SF 0) with (SpecFloat.S754_zero false).
  change (Prim2SF zero) with (SpecFloat.S754_zero false).
  destruct (Prim2SF m) as [s|s| |s mant e];
    try destruct s; cbn; congruence.
Qed.

(** part_000: whenever the largest dimension is zero the factor is 1. *)
Lemma Part000_scale_of_degenerate (scene : Object3D) :
  is_zero (Part000.Model_maxDim scene) = true ->
  Part000.Model_scale scene = 1.
Proof.
  intros H. unfold Part000.Model_scale.
  rewrite (zero_not_positive _ H). reflexivity.
Qed.

(** part_000 on the single point and on the asset without geometry. *)
Example Part000_scale_point_and_empty :
  Part000.Model_scale Scenario.pointAsset = 1
  /\ Part000.Model_scale Scenario.emptyAsset = 1.
Proof. vm_compute. split; reflexivity. Qed.

(** C9: App.jsx divides by the largest dimension without a guard: for an
    asset whose content is a single point, and for one without geometry,
    the largest dimension is 0 and the factor is [10 / 0], which is
    Infinity; the scale of the scene becomes infinite. *)
Theorem C9_AppJsx_degenerate_box_scale_infinite :
  AppJsx.Model_maxDim Scenario.pointAsset = 0
  /\ AppJsx.Model_scale Scenario.pointAsset = infinity
  /\ isFinite (AppJsx.Model_scale Scenario.pointAsset) = false
  /\ o_scale (AppJsx.Model_effect Scenario.pointAsset)
     = mkVector3 infinity infinity infinity
  /\ AppJsx.Model_scale Scenario.emptyAsset = infinity.
Proof. vm_compute. repeat split. Qed.

(** ** Device probe *)

Lemma Part000_resizes (ws : list Window) (w0 : Window)
      (d : Part000.DevicePerformance) :
  Part000.isMobile d = Spec.mobileProfile w0 ->
  let d' := fold_left (fun d w => Part000.onResize w d) ws d in
  Part000.isMobile d' = Spec.mobileProfile (Spec.latest w0 ws)
  /\ Part000.lowPower d' = Part000.lowPower d.
Proof.
  intros Hd. induction ws as [|w ws IH] using rev_ind.
  - split; [exact Hd | reflexivity].
  - cbn zeta in *. rewrite fold_left_app. unfold Spec.latest.
    rewrite last_last. cbn. split; [reflexivity | apply IH].
Qed.

Lemma effectivePixelRatio_or_else (w : Window) :
  or_else (devicePixelRatio w) 1 = Spec.effectivePixelRatio w.
Proof.
  unfold or_else, ToBoolean, Spec.effectivePixelRatio.
  destruct (is_nan _ || is_zero _); reflexivity.
Qed.

(** C7: lowPower does not follow resize events: mounted in a window with
    pixel ratio 1 and 8 cores, then resized into one with pixel ratio 3,
    the probe still reports lowPower = false although the pixel ratio is
    at least 2.5. *)
Lemma C7_lowPower_stale_after_resize :
  Part000.lowPower
    (Part000.useDevicePerformance Scenario.desktop [Scenario.desktopZoomed])
  = false
  /\ Spec.lowPowerProfile (devicePixelRatio Scenario.desktopZoomed)
       (hardwareConcurrency Scenario.desktopZoomed) = true.
Proof. vm_compute. split; reflexivity. Qed.

(** C7 (amended): isMobile holds exactly when the viewport width of the
    latest window state is at most 768, at the start and after every
    resize event, in part_000 and in App.jsx; lowPower is fixed when the
    probe mounts, from the pixel ratio (read as 1 when it is 0 or not a
    number) and the core count of the window at that time, and resize
    events do not change it. *)
Theorem C7_device_profile :
  forall (w0 : Window) (ws : list Window),
    Part000.isMobile (Part000.useDevicePerformance w0 ws)
    = Spec.mobileProfile (Spec.latest w0 ws)
    /\ Part000.lowPower (Part000.useDevicePerformance w0 ws)
       = Spec.lowPowerProfile (Spec.effectivePixelRatio w0)
           (hardwareConcurrency w0)
    /\ AppJsx.isMobile_after w0 ws = Spec.mobileProfile (Spec.latest w0 ws).
Proof.
  intros w0 ws. unfold Part000.useDevicePerformance.
  destruct (Part000_resizes ws w0
              (Part000.useDevicePerformance_mount w0
                 (Part000.useDevicePerformance_initial w0)) eq_refl)
    as [Hm Hl].
  split; [exact Hm|]. split.
  - rewrite Hl. cbn [Part000.useDevicePerformance_mount Part000.lowPower].
    unfold Part000.lowPowerHeuristic, Part000.fewCores, Spec.lowPowerProfile.
    rewrite effectivePixelRatio_or_else. reflexivity.
  - unfold AppJsx.isMobile_after, Spec.latest.
    induction ws as [|w ws _] using rev_ind.
    + reflexivity.
    + rewrite fold_left_app, last_last. reflexivity.
Qed.

(** * Further properties of the sources *)

(** ** Order of binary64 numbers *)

Lemma SFcompare_antisym (a b : SpecFloat.spec_float) :
  SpecFloat.SFcompare b a = option_map CompOpp (SpecFloat.SFcompare a b).
Proof.
  destruct a as [sa|sa| |sa ma ea], b as [sb|sb| |sb mb eb];
    try destruct sa; try destruct sb; cbn; try reflexivity.
  all: rewrite (BinInt.Z.compare_antisym ea eb);
    destruct (BinInt.Z.compare ea eb); cbn; try reflexivity.
  all: change (PosDef.Pos.compare_cont Eq mb ma)
         with (BinPos.Pos.compare_cont (CompOpp Eq) mb ma);
    rewrite <- (BinPos.Pos.compare_cont_antisym ma mb Eq); reflexivity.
Qed.

Lemma not_nan_spec (v : number) :
  is_nan v = false -> Prim2SF v <> SpecFloat.S754_nan.
Proof.
  unfold is_nan. rewrite FloatAxioms.eqb_spec. intros H Hn.
  rewrite Hn in H. discriminate.
Qed.

Lemma ltb_leb (a b : number) : (a <? b) = true -> (a <=? b) = true.
Proof.
  rewrite FloatAxioms.ltb_spec, FloatAxioms.leb_spec.
  unfold SpecFloat.SFltb, SpecFloat.SFleb.
  destruct (SpecFloat.SFcompare _ _) as [[| |]|]; congruence.
Qed.

(** Two numbers that are not NaN are comparable. *)
Lemma not_ltb_leb (a b : number) :
  is_nan a = false -> is_nan b = false -> (a <? b) = false -> (b <=? a) = true.
Proof.
  intros Ha Hb. apply not_nan_spec in Ha. apply not_nan_spec in Hb.
  rewrite FloatAxioms.ltb_spec, FloatAxioms.leb_spec.
  unfold SpecFloat.SFltb, SpecFloat.SFleb.
  rewrite (SFcompare_antisym (Prim2SF a) (Prim2SF b)).
  destruct (Prim2SF a) as [sa|sa| |sa ma ea], (Prim2SF b) as [sb|sb| |sb mb eb];
    try congruence;
    destruct (SpecFloat.SFcompare _ _) as [[| |]|] eqn:E; cbn in *; congruence.
Qed.

(** Nothing is below NaN. *)
Lemma nan_not_greater (a m : number) : is_nan m = true -> (a <? m) = false.
Proof.
  unfold is_nan. rewrite FloatAxioms.eqb_spec, FloatAxioms.ltb_spec.
  unfold SpecFloat.SFeqb, SpecFloat.SFltb. intros H.
  destruct (Prim2SF m) as [s|s| |s mm e].
  - discriminate.
  - destruct s; discriminate.
  - destruct (Prim2SF a); reflexivity.
  - exfalso. revert H. cbn.
    rewrite BinInt.Z.compare_refl, BinPos.Pos.compare_cont_refl.
    destruct s; discriminate.
Qed.

(** ** Camera targets under the user's actions *)

Lemma AppJsx_targets_after (evs : list AppJsx.UIEvent) (s : AppJsx.State) :
  Observe.isSet (AppJsx.cameraTarget (AppJsx.run evs s))
  = existsb AppJsx.replacesTargets evs || Observe.isSet (AppJsx.cameraTarget s)
  /\ Observe.isSet (AppJsx.cameraLookAt (AppJsx.run evs s))
     = existsb AppJsx.replacesTargets evs
       || Observe.isSet (AppJsx.cameraLookAt s).
Proof.
  revert s. induction evs as [|ev evs IH]; intros s.
  - split; reflexivity.
  - change (AppJsx.run (ev :: evs) s) with (AppJsx.run evs (AppJsx.step s ev)).
    destruct (IH (AppJsx.step s ev)) as [Ht Hl]. rewrite Ht, Hl.
    destruct ev; cbn; split;
      rewrite ?orb_true_r, ?orb_true_l; reflexivity.
Qed.

Lemma Part000_targets_after (evs : list Part000.UIEvent) (s : Part000.State) :
  Observe.isSet (Part000.cameraTarget (Part000.run evs s))
  = existsb Observe.Part000_replacesTargets evs
    || Observe.isSet (Part000.cameraTarget s)
  /\ Observe.isSet (Part000.cameraLookAt (Part000.run evs s))
     = existsb Observe.Part000_replacesTargets evs
       || Observe.isSet (Part000.cameraLookAt s).
Proof.
  revert s. induction evs as [|ev evs IH]; intros s.
  - split; reflexivity.
  - change (Part000.run (ev :: evs) s)
      with (Part000.run evs (Part000.step s ev)).
    destruct (IH (Part000.step s ev)) as [Ht Hl]. rewrite Ht, Hl.
    destruct ev; cbn; split;
      rewrite ?orb_true_r, ?orb_true_l; reflexivity.
Qed.

(** X1: starting from the initial state, the camera target and the
    look-at target are set exactly when the user has clicked a marker or
    reset the camera at least once: they are always set together, and no
    action sets either back to null (App.jsx and part_000). *)
Theorem targets_set_together :
  (forall evs : list AppJsx.UIEvent,
      let s := AppJsx.run evs AppJsx.initialState in
      Observe.isSet (AppJsx.cameraTarget s)
      = existsb AppJsx.replacesTargets evs
      /\ Observe.isSet (AppJsx.cameraLookAt s)
         = existsb AppJsx.replacesTargets evs)
  /\
  (forall evs : list Part000.UIEvent,
      let s := Part000.run evs Part000.initialState in
      Observe.isSet (Part000.cameraTarget s)
      = existsb Observe.Part000_replacesTargets evs
      /\ Observe.isSet (Part000.cameraLookAt s)
         = existsb Observe.Part000_replacesTargets evs).
Proof.
  split; intros evs s; subst s.
  - destruct (AppJsx_targets_after evs AppJsx.initialState) as [Ht Hl].
    rewrite Ht, Hl, !orb_false_r. split; reflexivity.
  - destruct (Part000_targets_after evs Part000.initialState) as [Ht Hl].
    rewrite Ht, Hl, !orb_false_r. split; reflexivity.
Qed.

(** X2: closing the panel never moves the camera: the targets after any
    sequence of actions are those of the same sequence without the
    closings, and right after a closing nothing is selected (App.jsx and
    part_000). *)
Theorem closing_panel_keeps_targets :
  (forall (evs : list AppJsx.UIEvent) (s : AppJsx.State),
      let s' := AppJsx.run evs s in
      let s'' := AppJsx.run (filter AppJsx.replacesTargets evs) s in
      AppJsx.cameraTarget s' = AppJsx.cameraTarget s''
      /\ AppJsx.cameraLookAt s' = AppJsx.cameraLookAt s''
      /\ AppJsx.selectedPoint (AppJsx.step s' AppJsx.ClosePanel) = None)
  /\
  (forall (evs : list Part000.UIEvent) (s : Part000.State),
      let s' := Part000.run evs s in
      let s'' := Part000.run (filter Observe.Part000_replacesTargets evs) s in
      Part000.cameraTarget s' = Part000.cameraTarget s''
      /\ Part000.cameraLookAt s' = Part000.cameraLookAt s''
      /\ Part000.selectedIndex (Part000.step s' Part000.ClosePanel) = None).
Proof.
  split.
  - intros evs s. cbn zeta.
    assert (H : AppJsx.cameraTarget (AppJsx.run evs s)
                = AppJsx.cameraTarget
                    (AppJsx.run (filter AppJsx.replacesTargets evs) s)
                /\ AppJsx.cameraLookAt (AppJsx.run evs s)
                   = AppJsx.cameraLookAt
                       (AppJsx.run (filter AppJsx.replacesTargets evs) s)).
    { induction evs as [|ev evs IH] using rev_ind.
      - split; reflexivity.
      - rewrite filter_app. unfold AppJsx.run in *.
        rewrite !fold_left_app. destruct ev; cbn; try (split; reflexivity).
        exact IH. }
    destruct H as [Ht Hl]. repeat split; assumption.
  - intros evs s. cbn zeta.
    assert (H : Part000.cameraTarget (Part000.run evs s)
                = Part000.cameraTarget
                    (Part000.run (filter Observe.Part000_replacesTargets evs) s)
                /\ Part000.cameraLookAt (Part000.run evs s)
                   = Part000.cameraLookAt
                       (Part000.run
                          (filter Observe.Part000_replacesTargets evs) s)).
    { induction evs as [|ev evs IH] using rev_ind.
      - split; reflexivity.
      - rewrite filter_app. unfold Part000.run in *.
        rewrite !fold_left_app. destruct ev; cbn; try (split; reflexivity).
        exact IH. }
    destruct H as [Ht Hl]. repeat split; assumption.
Qed.

(** ** The panel *)

(** part_000: the selected index always names a rendered marker. *)
Lemma Part000_selection_in_range (evs : list Part000.UIEvent)
      (s : Part000.State) :
  Forall Part000.rendered evs ->
  Part000.panel s <> Part000.RenderError ->
  Part000.panel (Part000.run evs s) <> Part000.RenderError.
Proof.
  intros Hevs. revert s. induction Hevs as [|ev evs Hev _ IH]; intros s Hs.
  - exact Hs.
  - change (Part000.run (ev :: evs) s)
      with (Part000.run evs (Part000.step s ev)).
    apply IH. destruct ev as [p i| |]; cbn in *.
    + unfold Part000.panel. cbn. rewrite Hev. discriminate.
    + discriminate.
    + discriminate.
Qed.

(** X3: part_000 reads [glowingPoints[selectedIndex]] when it renders the
    panel.  Whatever the user has clicked, reset or closed before, the
    index is in range and the panel never fails to render; after a click
    on a marker it shows that marker's content, and after closing it is
    hidden. *)
Theorem Part000_panel_shows_clicked_marker :
  forall (evs : list Part000.UIEvent) (p : Marker) (i : nat),
    Forall Part000.rendered evs ->
    nth_error Part000.glowingPoints i = Some p ->
    let s := Part000.run evs Part000.initialState in
    Part000.panel s <> Part000.RenderError
    /\ Part000.panel (Part000.step s (Part000.ClickMarker p i))
       = Part000.Shown (content p)
    /\ Part000.panel
         (Part000.step (Part000.step s (Part000.ClickMarker p i))
            Part000.ClosePanel) = Part000.Hidden.
Proof.
  intros evs p i Hevs Hp s. subst s. split; [|split].
  - apply Part000_selection_in_range; [exact Hevs | discriminate].
  - unfold Part000.panel. cbn. rewrite Hp. reflexivity.
  - reflexivity.
Qed.

Lemma Part000_panel_shows_clicked_marker_witness :
  Part000.panel
    (Part000.step
       (Part000.run
          [Part000.ClickMarker
             (mkMarker (2, 3, -2) "Point A"
                (mkContent "Master Bedroom" "Spacious master bedroom..."
                   ["3.5m x 4.2m"; "King bed"]%string)) 0;
           Part000.ResetCamera]
          Part000.initialState)
       (Part000.ClickMarker
          (mkMarker (1, -1, 3) "Point C"
             (mkContent "Kitchen" "Contemporary kitchen..."
                ["3m x 4m"]%string)) 2))
  = Part000.Shown
      (mkContent "Kitchen" "Contemporary kitchen..." ["3m x 4m"]%string).
Proof.
  apply (Part000_panel_shows_clicked_marker
           [Part000.ClickMarker
              (mkMarker (2, 3, -2) "Point A"
                 (mkContent "Master Bedroom" "Spacious master bedroom..."
                    ["3.5m x 4.2m"; "King bed"]%string)) 0;
            Part000.ResetCamera]
           (mkMarker (1, -1, 3) "Point C"
              (mkContent "Kitchen" "Contemporary kitchen..."
                 ["3m x 4m"]%string)) 2).
  - repeat constructor.
  - reflexivity.
Defined.

(** ** Clicks on overlapping markers *)

Lemma AppJsx_deliver_last (hits : list nat) (i : nat) (point : Marker)
      (e : R3F.ThreeEvent) (s : AppJsx.State) :
  R3F.stopped e = false ->
  Observe.AppJsx_allRendered hits = true ->
  nth_error AppJsx.glowingPoints i = Some point ->
  snd (R3F.deliver AppJsx.marker_onClick (hits ++ [i]) e s)
  = AppJsx.handlePointClick (position point) (label point) point s.
Proof.
  intros He. revert s. induction hits as [|h hits IH]; intros s Hall Hi.
  - cbn. unfold AppJsx.marker_onClick. rewrite Hi. cbn. rewrite He.
    reflexivity.
  - cbn in Hall. apply andb_true_iff in Hall as [Hh Hall].
    cbn [app R3F.deliver]. unfold AppJsx.marker_onClick at 1.
    destruct (nth_error AppJsx.glowingPoints h) as [ph|]; [|discriminate].
    cbn. rewrite He.
    specialize (IH (AppJsx.handlePointClick (position ph) (label ph) ph s)
                   Hall Hi).
    destruct (R3F.deliver AppJsx.marker_onClick (hits ++ [i]) e
                (AppJsx.handlePointClick (position ph) (label ph) ph s))
      as [ran s'].
    cbn in *. rewrite IH. reflexivity.
Qed.

(** X4: in App.jsx a click is delivered to every marker under the
    pointer, nearest first, and each handler overwrites the state: the
    marker left selected, and the one the camera flies to, is the one
    farthest from the viewer. *)
Theorem AppJsx_click_selects_farthest :
  forall (hits : list nat) (i : nat) (point : Marker) (s : AppJsx.State),
    Observe.AppJsx_allRendered hits = true ->
    nth_error AppJsx.glowingPoints i = Some point ->
    let '(ran, s') := R3F.click AppJsx.marker_onClick (hits ++ [i]) s in
    ran = hits ++ [i]
    /\ AppJsx.selectedPoint s'
       = Some (AppJsx.mkSelected (position point) (label point) point)
    /\ AppJsx.cameraLookAt s' = Some (Spec.asVector (position point))
    /\ AppJsx.cameraTarget s'
       = Some (Spec.offsetAlongDirection (position point) 5).
Proof.
  intros hits i point s Hall Hi.
  pose proof (AppJsx_click_reaches_all (hits ++ [i]) R3F.freshEvent s eq_refl)
    as Hran.
  pose proof (AppJsx_deliver_last hits i point R3F.freshEvent s eq_refl
                Hall Hi) as Hs.
  unfold R3F.click.
  destruct (R3F.deliver AppJsx.marker_onClick (hits ++ [i]) R3F.freshEvent s)
    as [ran s'].
  cbn in Hran, Hs. subst ran s'. split; [reflexivity|].
  unfold AppJsx.handlePointClick.
  cbn [AppJsx.selectedPoint AppJsx.cameraLookAt AppJsx.cameraTarget].
  fold (Spec.asVector (position point)).
  rewrite normalize_is_unitDirection. repeat split.
Qed.

Lemma AppJsx_click_selects_farthest_witness :
  option_map AppJsx.sel_label
    (AppJsx.selectedPoint
       (snd (R3F.click AppJsx.marker_onClick ([2; 0] ++ [3])%nat
               AppJsx.initialState)))
  = Some "Point D"%string.
Proof.
  pose proof (AppJsx_click_selects_farthest [2; 0]%nat 3
                (mkMarker (-2, 0, -3) "Point D"
                   (mkContent "Bathroom"
                      "Luxurious bathroom with spa-like amenities."
                      ["2.5m x 3m"; "Jacuzzi tub"; "Rainfall shower"]%string))
                AppJsx.initialState eq_refl eq_refl) as H.
  destruct (R3F.click AppJsx.marker_onClick ([2; 0] ++ [3])%nat
              AppJsx.initialState) as [ran s'].
  destruct H as (_ & Hsel & _). cbn [snd]. rewrite Hsel. reflexivity.
Defined.

(** The hypotheses of the two lemmas on stopped clicks hold of the second
    marker of each variant. *)
Lemma Part000_click_stops_at_first_witness :
  R3F.click Part000.marker_onClick [1; 0; 3]%nat Part000.initialState
  = ([1]%nat,
     Part000.handlePointClick (-3, 2, 1) 1 Part000.initialState).
Proof.
  apply (Part000_click_stops_at_first 1 [0; 3]%nat Part000.initialState
           (mkMarker (-3, 2, 1) "Point B"
              (mkContent "Living Room" "Modern living area..."
                 ["5m x 6m"; "Premium sofa"]%string))).
  reflexivity.
Defined.

Lemma Part001_click_stops_at_first_witness :
  R3F.click Part001.marker_onClick [1; 0]%nat None
  = ([1]%nat,
     Part001.onPointClick (- Part001.half, Part001.half, Part001.half) None).
Proof.
  apply (Part001_click_stops_at_first 1 [0]%nat None
           (- Part001.half, Part001.half, Part001.half)).
  reflexivity.
Defined.

(** ** Hover and the document cursor (App.jsx) *)

Lemma AppJsx_pointer_cursor_sound (h : AppJsx.Hover) (ev : AppJsx.PointerEvent) :
  (AppJsx.cursor h = "pointer"%string -> exists i, AppJsx.hovered h i = true) ->
  AppJsx.cursor (AppJsx.pointer h ev) = "pointer"%string ->
  exists i, AppJsx.hovered (AppJsx.pointer h ev) i = true.
Proof.
  intros Inv. destruct ev as [i|i|i]; cbn [AppJsx.pointer].
  - unfold AppJsx.setHovered.
    destruct (Bool.eqb (AppJsx.hovered h i) true) eqn:E.
    + exact Inv.
    + intros _. exists i. cbn. rewrite Nat.eqb_refl. reflexivity.
  - unfold AppJsx.setHovered.
    destruct (Bool.eqb (AppJsx.hovered h i) false) eqn:E.
    + exact Inv.
    + cbn. discriminate.
  - cbn. discriminate.
Qed.

(** X7: the cursor of the document is "pointer" only while some marker
    is hovered, after any sequence of pointer events and unmounts. *)
Theorem AppJsx_cursor_pointer_only_when_hovered :
  forall evs : list AppJsx.PointerEvent,
    AppJsx.cursor (AppJsx.pointers evs AppJsx.initialHover) = "pointer"%string ->
    exists i, AppJsx.hovered (AppJsx.pointers evs AppJsx.initialHover) i = true.
Proof.
  induction evs as [|ev evs IH] using rev_ind.
  - cbn. discriminate.
  - unfold AppJsx.pointers in *. rewrite fold_left_app. cbn [fold_left].
    apply AppJsx_pointer_cursor_sound. exact IH.
Qed.

Lemma AppJsx_cursor_pointer_only_when_hovered_witness :
  exists i,
    AppJsx.hovered
      (AppJsx.pointers [AppJsx.PointerEnter 0; AppJsx.PointerLeave 0;
                        AppJsx.PointerEnter 2] AppJsx.initialHover) i = true.
Proof.
  apply (AppJsx_cursor_pointer_only_when_hovered
           [AppJsx.PointerEnter 0; AppJsx.PointerLeave 0;
            AppJsx.PointerEnter 2]).
  reflexivity.
Defined.

(** The converse fails: with two markers hovered at once, leaving one of
    them resets the cursor although the other is still hovered. *)
Example AppJsx_cursor_default_while_hovered :
  let h := AppJsx.pointers
             [AppJsx.PointerEnter 0; AppJsx.PointerEnter 1;
              AppJsx.PointerLeave 0] AppJsx.initialHover in
  AppJsx.hovered h 1 = true /\ AppJsx.cursor h = "default"%string.
Proof. split; reflexivity. Qed.

(** ** The controller never raises (App.jsx) *)

Lemma AppJsx_act_sound (Math_pow : number -> number -> number)
      (sc : AppJsx.Scene) (a : AppJsx.Action) :
  Observe.AppJsx_sound sc ->
  exists sc', AppJsx.act Math_pow sc a = Some sc' /\ Observe.AppJsx_sound sc'.
Proof.
  intros Inv. destruct a as [ev|].
  - eexists. split; [reflexivity|].
    destruct ev; unfold Observe.AppJsx_sound in *; cbn; auto.
  - destruct sc as [u [sp sl p active] cam]. unfold Observe.AppJsx_sound in Inv.
    cbn in Inv. unfold AppJsx.act, AppJsx.CameraController_frame.
    cbn [AppJsx.ui AppJsx.animation AppJsx.camera AppJsx.isAnimating
         AppJsx.progress AppJsx.startPosition AppJsx.startLookAt].
    destruct active; cbn [negb].
    + destruct (Inv eq_refl) as (Hsp & Hsl & Ht & Hl).
      destruct sp as [sp|]; [|discriminate].
      destruct sl as [sl|]; [|discriminate].
      destruct (AppJsx.cameraTarget u) as [tp|] eqn:Etp; [|discriminate].
      destruct (AppJsx.cameraLookAt u) as [tl|] eqn:Etl; [|discriminate].
      destruct (1 <=? p + 0.004); eexists; (split; [reflexivity|]);
        unfold Observe.AppJsx_sound; cbn; rewrite ?Etp, ?Etl; auto; discriminate.
    + eexists. split; [reflexivity|]. unfold Observe.AppJsx_sound. cbn. discriminate.
Qed.

(** X8: whatever the user does and however frames interleave with it,
    starting from the scene as it is first rendered, no frame of App.jsx
    reads a property of null: every sequence of actions runs to the
    end. *)
Theorem AppJsx_frames_never_raise :
  forall (Math_pow : number -> number -> number) (acts : list AppJsx.Action),
  exists sc, AppJsx.perform Math_pow acts AppJsx.initialScene = Some sc.
Proof.
  intros Math_pow acts.
  assert (H : forall sc, Observe.AppJsx_sound sc ->
                exists sc', AppJsx.perform Math_pow acts sc = Some sc').
  { induction acts as [|a acts IH]; intros sc Inv.
    - exists sc. reflexivity.
    - destruct (AppJsx_act_sound Math_pow sc a Inv) as (sc1 & H1 & Inv1).
      cbn [AppJsx.perform]. rewrite H1. apply IH. exact Inv1. }
  apply H. unfold Observe.AppJsx_sound. cbn. discriminate.
Qed.

(** ** Length of an animation episode *)

Lemma AppJsx_progress_table (n : nat) :
  snd (Tween.AppJsx_progress n) = (n <? 250)%nat
  /\ (0 <=? fst (Tween.AppJsx_progress n)) = true
  /\ (fst (Tween.AppJsx_progress n) <=? 1) = true.
Proof.
  destruct (Nat.lt_ge_cases n 250) as [Hlt|Hge].
  - assert (Hall : forallb
                     (fun n => Bool.eqb (snd (Tween.AppJsx_progress n)) true
                               && (0 <=? fst (Tween.AppJsx_progress n))
                               && (fst (Tween.AppJsx_progress n) <=? 1))
                     (seq 0 250) = true) by (vm_compute; reflexivity).
    rewrite forallb_forall in Hall.
    assert (Hn : In n (seq 0 250)) by (apply in_seq; lia).
    specialize (Hall n Hn). apply andb_true_iff in Hall as [Hall H1].
    apply andb_true_iff in Hall as [Ha H0]. apply eqb_prop in Ha.
    rewrite Ha. apply Nat.ltb_lt in Hlt. rewrite Hlt. auto.
  - rewrite (AppJsx_progress_finished n Hge).
    apply Nat.ltb_ge in Hge. rewrite Hge. repeat split.
Qed.

Lemma Part000_progress_table (n : nat) :
  (Tween.Part000_progress n <? 1) = (n <? 34)%nat
  /\ (0 <=? Tween.Part000_progress n) = true
  /\ (Tween.Part000_progress n <=? 1) = true.
Proof.
  destruct (Nat.lt_ge_cases n 34) as [Hlt|Hge].
  - assert (Hall : forallb
                     (fun n => (Tween.Part000_progress n <? 1)
                               && (0 <=? Tween.Part000_progress n)
                               && (Tween.Part000_progress n <=? 1))
                     (seq 0 34) = true) by (vm_compute; reflexivity).
    rewrite forallb_forall in Hall.
    assert (Hn : In n (seq 0 34)) by (apply in_seq; lia).
    specialize (Hall n Hn). apply andb_true_iff in Hall as [Hall H1].
    apply andb_true_iff in Hall as [Ha H0].
    rewrite Ha. apply Nat.ltb_lt in Hlt. rewrite Hlt. auto.
  - rewrite (Part000_progress_finished n Hge).
    apply Nat.ltb_ge in Hge. rewrite Hge. repeat split.
Qed.

(** X9: an episode lasts exactly 250 frames in App.jsx and 34 frames in
    part_000, whatever the start and the targets: the animation is
    active on every earlier frame and idle from then on, and progress
    stays between 0 and 1 throughout. *)
Theorem episode_length :
  (forall (Math_pow : number -> number -> number) (tp tl : Vector3)
          (camera : Camera) (animation : AppJsx.Animation) (n : nat),
      exists st,
        AppJsx.frames Math_pow n (Some tp) (Some tl)
          (AppJsx.CameraController_effect (Some tp) (Some tl) camera animation,
           camera) = Some st
        /\ AppJsx.isAnimating (fst st) = (n <? 250)%nat
        /\ (0 <=? AppJsx.progress (fst st)) = true
        /\ (AppJsx.progress (fst st) <=? 1) = true)
  /\
  (forall (Math_cos : number -> number) (tp tl : Vector3)
          (camera : Camera) (r : Part000.Ref) (n : nat),
      let st := Part000.frames Math_cos n (Some tp) (Some tl)
                  (Part000.CameraController_effect (Some tp) (Some tl)
                     camera r, camera) in
      (Part000.progress (fst st) <? 1) = (n <? 34)%nat
      /\ (0 <=? Part000.progress (fst st)) = true
      /\ (Part000.progress (fst st) <=? 1) = true).
Proof.
  split.
  - intros Math_pow tp tl camera animation n.
    cbn [AppJsx.CameraController_effect].
    destruct (AppJsx_frames_trace Math_pow tp tl (cam_position camera)
                (mkVector3 0 0 0) camera n) as [c Hn].
    eexists. split; [exact Hn|]. cbn [fst AppJsx.isAnimating AppJsx.progress].
    apply AppJsx_progress_table.
  - intros Math_cos tp tl camera r n.
    cbn [Part000.CameraController_effect].
    destruct (Part000_frames_trace Math_cos tp tl (cam_position camera)
                (mkVector3 0 0 0) camera n) as [c Hn].
    rewrite Hn. cbn [fst Part000.progress]. apply Part000_progress_table.
Qed.

(** ** Rendering quality (part_000) *)

Lemma Math_min_clamp (v : number) :
  is_nan v = false -> Math_min [1.5; v] = if v <? 1.5 then v else 1.5.
Proof.
  intros Hv. unfold Math_min. cbn [fold_left].
  change (min_step infinity 1.5) with 1.5.
  unfold min_step. change (is_nan 1.5) with false. rewrite Hv.
  change (is_pos_zero 1.5) with false. rewrite andb_false_r. reflexivity.
Qed.

Lemma effectivePixelRatio_truthy (w : Window) :
  ToBoolean (Spec.effectivePixelRatio w) = true.
Proof.
  rewrite <- effectivePixelRatio_or_else. apply or_else_truthy. reflexivity.
Qed.

(** X10: the pixel ratio handed to the canvas never exceeds 1.5 and is
    never zero or NaN; antialiasing and shadows are switched together,
    and when they are off the ratio is exactly 1.  With the profile of
    the current window (no resize since mounting) the ratio is at least
    1 as well. *)
Theorem Part000_canvas_pixel_ratio :
  (forall (w : Window) (d : Part000.DevicePerformance),
      let c := Part000.renderConfig w d in
      (Part000.canvasDpr c <=? 1.5) = true
      /\ ToBoolean (Part000.canvasDpr c) = true
      /\ Part000.antialias c = Part000.shadows c
      /\ Part000.antialias c
         = negb (Part000.isMobile d || Part000.lowPower d)
      /\ Part000.canvasDpr c
         = if Part000.antialias c
           then Math_min [1.5; Spec.effectivePixelRatio w]
           else 1)
  /\
  (forall w : Window,
      (1 <=? Part000.canvasDpr
               (Part000.renderConfig w (Part000.useDevicePerformance w [])))
      = true).
Proof.
  split.
  - intros w d c. subst c. unfold Part000.renderConfig.
    cbn [Part000.canvasDpr Part000.antialias Part000.shadows].
    rewrite effectivePixelRatio_or_else.
    pose proof (effectivePixelRatio_truthy w) as Ht.
    rewrite (Math_min_clamp _ (truthy_not_nan _ Ht)).
    rewrite <- negb_orb.
    destruct (Part000.isMobile d || Part000.lowPower d); cbn [negb].
    + repeat split.
    + destruct (Spec.effectivePixelRatio w <? 1.5) eqn:E.
      * repeat split; [apply ltb_leb; exact E | exact Ht].
      * repeat split.
  - intros w. unfold Part000.renderConfig, Part000.useDevicePerformance.
    cbn [fold_left Part000.useDevicePerformance_mount
         Part000.useDevicePerformance_initial Part000.isMobile
         Part000.lowPower Part000.canvasDpr].
    destruct (innerWidth w <=? 768); cbn [orb]; [reflexivity|].
    unfold Part000.lowPowerHeuristic.
    rewrite effectivePixelRatio_or_else.
    pose proof (effectivePixelRatio_truthy w) as Ht.
    destruct (Spec.effectivePixelRatio w <? 1) eqn:E1; cbn [orb];
      [reflexivity|].
    destruct ((2.5 <=? Spec.effectivePixelRatio w) || Part000.fewCores w);
      [reflexivity|].
    rewrite (Math_min_clamp _ (truthy_not_nan _ Ht)).
    destruct (Spec.effectivePixelRatio w <? 1.5); [|reflexivity].
    apply not_ltb_leb; [apply truthy_not_nan; exact Ht | reflexivity | exact E1].
Qed.

(** After the page is zoomed out the stale profile lets a ratio below 1
    through. *)
Example Part000_canvas_pixel_ratio_after_zoom :
  Part000.canvasDpr
    (Part000.renderConfig (mkWindow 3840 0.5 (Some 8))
       (Part000.useDevicePerformance Scenario.desktop
          [mkWindow 3840 0.5 (Some 8)])) = 0.5.
Proof. vm_compute. reflexivity. Qed.

(** ** Assets without extent (part_000) *)

Lemma Part000_maxDim_of_empty (scene : Object3D) :
  isEmpty (o_content scene) = true -> Part000.Model_maxDim scene = 0.
Proof.
  intros H. unfold Part000.Model_maxDim, setFromObject. rewrite H.
  vm_compute. reflexivity.
Qed.

(** X11: part_000 divides only by a positive largest dimension: for an
    asset without geometry, wherever it is placed, and whenever the
    measured largest dimension is zero or NaN, the factor is 1 and the
    scale of the scene is set to (1, 1, 1). *)
Theorem Part000_scale_guard :
  forall scene : Object3D,
    isEmpty (o_content scene)
    || negb (ToBoolean (Part000.Model_maxDim scene)) = true ->
    Part000.Model_scale scene = 1
    /\ o_scale (Part000.Model_effect scene) = mkVector3 1 1 1.
Proof.
  intros scene H.
  assert (Hs : Part000.Model_scale scene = 1).
  { unfold Part000.Model_scale.
    apply orb_true_iff in H as [He|Hf].
    - rewrite (Part000_maxDim_of_empty scene He). reflexivity.
    - apply negb_true_iff in Hf. unfold ToBoolean in Hf.
      apply negb_false_iff in Hf. apply orb_true_iff in Hf as [Hn|Hz].
      + rewrite (nan_not_greater 0 _ Hn). reflexivity.
      + rewrite (zero_not_positive _ Hz). reflexivity. }
  split; [exact Hs|].
  unfold Part000.Model_effect. cbn [o_scale]. rewrite Hs. reflexivity.
Qed.

Lemma Part000_scale_guard_witness :
  Part000.Model_scale
    (mkObject3D (mkVector3 3 (-2) 7) (mkVector3 4 4 4) emptyBox) = 1
  /\ o_scale (Part000.Model_effect
                (mkObject3D (mkVector3 3 (-2) 7) (mkVector3 4 4 4) emptyBox))
     = mkVector3 1 1 1.
Proof.
  apply (Part000_scale_guard
           (mkObject3D (mkVector3 3 (-2) 7) (mkVector3 4 4 4) emptyBox)).
  reflexivity.
Defined.

(** ** From a click to the end of the flight (App.jsx) *)

Section AppJsxScene.
Variable Math_pow : number -> number -> number.
Variables (tp tl sp sl : Vector3).

(** Frames and panel closings after the effect has run: the animation
    record follows the tabulated course of the frames counted so far,
    the targets stay, and once the animation is idle the camera sits on
    the target. *)
Lemma AppJsx_flight (rest : list AppJsx.Action) :
  forall (j : nat) (u : AppJsx.State) (cam : Camera),
    forallb AppJsx.keepsTargets rest = true ->
    AppJsx.cameraTarget u = Some tp ->
    AppJsx.cameraLookAt u = Some tl ->
    (snd (Tween.AppJsx_progress j) = false ->
     cam = mkCamera tp (mkOrientation tp tl)) ->
    exists u' cam',
      AppJsx.perform Math_pow rest
        (AppJsx.mkScene u
           (AppJsx.mkAnimation (Some sp) (Some sl)
              (fst (Tween.AppJsx_progress j)) (snd (Tween.AppJsx_progress j)))
           cam)
      = Some (AppJsx.mkScene u'
                (AppJsx.mkAnimation (Some sp) (Some sl)
                   (fst (Tween.AppJsx_progress (j + AppJsx.frameCount rest)))
                   (snd (Tween.AppJsx_progress (j + AppJsx.frameCount rest))))
                cam')
      /\ (snd (Tween.AppJsx_progress (j + AppJsx.frameCount rest)) = false ->
          cam' = mkCamera tp (mkOrientation tp tl)).
Proof.
  induction rest as [|a rest IH]; intros j u cam Hk Ht Hl Hcam.
  - exists u, cam. unfold AppJsx.frameCount. cbn [filter List.length].
    rewrite Nat.add_0_r. split; [reflexivity | exact Hcam].
  - cbn [forallb] in Hk. apply andb_true_iff in Hk as [Ha Hk].
    destruct a as [ev|].
    + destruct ev; try discriminate.
      cbn [AppJsx.perform AppJsx.act AppJsx.replacesTargets].
      change (AppJsx.frameCount (AppJsx.UI AppJsx.ClosePanel :: rest))
        with (AppJsx.frameCount rest).
      apply IH; assumption.
    + change (AppJsx.frameCount (AppJsx.Frame :: rest))
        with (S (AppJsx.frameCount rest)).
      rewrite <- Nat.add_succ_comm.
      cbn [AppJsx.perform AppJsx.act AppJsx.ui AppJsx.animation AppJsx.camera].
      rewrite Ht, Hl.
      assert (Hstep :
        exists cam1,
          AppJsx.CameraController_frame Math_pow (Some tp) (Some tl)
            (AppJsx.mkAnimation (Some sp) (Some sl)
               (fst (Tween.AppJsx_progress j)) (snd (Tween.AppJsx_progress j)),
             cam)
          = Some (AppJsx.mkAnimation (Some sp) (Some sl)
                    (fst (Tween.AppJsx_progress (S j)))
                    (snd (Tween.AppJsx_progress (S j))), cam1)
          /\ (snd (Tween.AppJsx_progress (S j)) = false ->
              cam1 = mkCamera tp (mkOrientation tp tl))).
      { change (Tween.AppJsx_progress (S j))
          with (Tween.AppJsx_tick (Tween.AppJsx_progress j)).
        destruct (Tween.AppJsx_progress j) as [p active].
        unfold AppJsx.CameraController_frame, Tween.AppJsx_tick.
        cbn [fst snd AppJsx.isAnimating AppJsx.progress AppJsx.startPosition
             AppJsx.startLookAt] in *.
        destruct active; cbn [negb].
        - destruct (1 <=? p + 0.004); eexists; split;
            try reflexivity; cbn [snd]; intros H; try discriminate.
        - eexists. split; [reflexivity|]. cbn [snd]. exact Hcam. }
      destruct Hstep as (cam1 & Hf & Hcam1). rewrite Hf.
      apply IH; assumption.
Qed.
End AppJsxScene.

(** An action that stores new targets, followed by frames and panel
    closings with at least 250 frames among them, leaves the camera on
    the new target, aimed at the new look-at point, with the animation
    idle. *)
Lemma AppJsx_flight_completes (Math_pow : number -> number -> number)
      (sc : AppJsx.Scene) (ev : AppJsx.UIEvent) (tp tl : Vector3)
      (rest : list AppJsx.Action) :
  AppJsx.replacesTargets ev = true ->
  AppJsx.cameraTarget (AppJsx.step (AppJsx.ui sc) ev) = Some tp ->
  AppJsx.cameraLookAt (AppJsx.step (AppJsx.ui sc) ev) = Some tl ->
  forallb AppJsx.keepsTargets rest = true ->
  250 <= AppJsx.frameCount rest ->
  exists sc',
    AppJsx.perform Math_pow (AppJsx.UI ev :: rest) sc = Some sc'
    /\ AppJsx.camera sc' = mkCamera tp (mkOrientation tp tl)
    /\ AppJsx.isAnimating (AppJsx.animation sc') = false
    /\ AppJsx.progress (AppJsx.animation sc') = 1.
Proof.
  intros Hev Htp Htl Hk Hn.
  cbn [AppJsx.perform AppJsx.act]. rewrite Hev, Htp, Htl.
  cbn [AppJsx.CameraController_effect].
  destruct (AppJsx_flight Math_pow tp tl (cam_position (AppJsx.camera sc))
              (mkVector3 0 0 0) rest 0 (AppJsx.step (AppJsx.ui sc) ev)
              (AppJsx.camera sc) Hk Htp Htl)
    as (u' & cam' & Hp & Hcam).
  { cbn. discriminate. }
  cbn [Nat.add] in Hp, Hcam.
  rewrite (AppJsx_progress_finished _ Hn) in Hp, Hcam.
  change (fst (Tween.AppJsx_progress 0)) with 0 in Hp.
  change (snd (Tween.AppJsx_progress 0)) with true in Hp.
  eexists. split; [exact Hp|]. cbn. repeat split. apply Hcam. reflexivity.
Qed.

(** X12: in App.jsx a click on a marker, followed by at least 250 frames
    (the panel may be closed in between), leaves the camera exactly on
    the point 5 units beyond the marker, aimed at the marker, and the
    animation idle, whatever the scene was before. *)
Theorem AppJsx_click_flies_to_marker :
  forall (Math_pow : number -> number -> number) (sc : AppJsx.Scene)
         (point : Marker) (rest : list AppJsx.Action),
    forallb AppJsx.keepsTargets rest = true ->
    250 <= AppJsx.frameCount rest ->
    exists sc',
      AppJsx.perform Math_pow (AppJsx.UI (AppJsx.ClickMarker point) :: rest) sc
      = Some sc'
      /\ AppJsx.camera sc'
         = mkCamera (Spec.offsetAlongDirection (position point) 5)
             (mkOrientation (Spec.offsetAlongDirection (position point) 5)
                (Spec.asVector (position point)))
      /\ AppJsx.isAnimating (AppJsx.animation sc') = false.
Proof.
  intros Math_pow sc point rest Hk Hn.
  destruct (AppJsx_flight_completes Math_pow sc (AppJsx.ClickMarker point)
              (Spec.offsetAlongDirection (position point) 5)
              (Spec.asVector (position point)) rest eq_refl)
    as (sc' & Hp & Hc & Ha & _); try assumption.
  - unfold AppJsx.step, AppJsx.GlowingPoint_onClick. cbn [snd].
    unfold AppJsx.handlePointClick. cbn [AppJsx.cameraTarget].
    fold (Spec.asVector (position point)).
    rewrite normalize_is_unitDirection. reflexivity.
  - reflexivity.
  - exists sc'. repeat split; assumption.
Qed.

Lemma AppJsx_click_flies_to_marker_witness :
  exists sc',
    AppJsx.perform (fun a _ => a * a * a)
      (AppJsx.UI (AppJsx.ClickMarker
                    (mkMarker (1, -1, 3) "Point C"
                       (mkContent "Kitchen" "" [])))
       :: repeat AppJsx.Frame 100 ++ [AppJsx.UI AppJsx.ClosePanel]
          ++ repeat AppJsx.Frame 150)
      AppJsx.initialScene = Some sc'
    /\ AppJsx.camera sc'
       = mkCamera (Spec.offsetAlongDirection (1, -1, 3) 5)
           (mkOrientation (Spec.offsetAlongDirection (1, -1, 3) 5)
              (Spec.asVector (1, -1, 3)))
    /\ AppJsx.isAnimating (AppJsx.animation sc') = false.
Proof.
  apply (AppJsx_click_flies_to_marker (fun a _ => a * a * a)
           AppJsx.initialScene
           (mkMarker (1, -1, 3) "Point C" (mkContent "Kitchen" "" []))
           (repeat AppJsx.Frame 100 ++ [AppJsx.UI AppJsx.ClosePanel]
            ++ repeat AppJsx.Frame 150)).
  - vm_compute. reflexivity.
  - apply Nat.leb_le. vm_compute. reflexivity.
Defined.

(** X13: in App.jsx "Reset Camera", followed by at least 250 frames,
    brings the camera back to the pose the canvas created it with, at
    (15, 12, 15) and aimed at the origin, from any scene. *)
Theorem AppJsx_reset_returns_to_initial_pose :
  forall (Math_pow : number -> number -> number) (sc : AppJsx.Scene)
         (rest : list AppJsx.Action),
    forallb AppJsx.keepsTargets rest = true ->
    250 <= AppJsx.frameCount rest ->
    exists sc',
      AppJsx.perform Math_pow (AppJsx.UI AppJsx.ResetCamera :: rest) sc
      = Some sc'
      /\ AppJsx.camera sc' = AppJsx.camera AppJsx.initialScene
      /\ AppJsx.selectedPoint (AppJsx.ui sc') = None
      /\ AppJsx.isAnimating (AppJsx.animation sc') = false.
Proof.
  intros Math_pow sc rest Hk Hn.
  cbn [AppJsx.perform AppJsx.act AppJsx.replacesTargets AppJsx.step
       AppJsx.handleResetCamera AppJsx.cameraTarget AppJsx.cameraLookAt
       AppJsx.CameraController_effect].
  assert (Hsel : forall (acts : list AppJsx.Action) (s1 : AppJsx.Scene),
             forallb AppJsx.keepsTargets acts = true ->
             AppJsx.selectedPoint (AppJsx.ui s1) = None ->
             forall s2, AppJsx.perform Math_pow acts s1 = Some s2 ->
                        AppJsx.selectedPoint (AppJsx.ui s2) = None).
  { induction acts as [|a acts IH]; intros s1 Hka Hs1 s2 Hrun.
    - cbn in Hrun. injection Hrun as <-. exact Hs1.
    - cbn [forallb] in Hka. apply andb_true_iff in Hka as [Ha Hka].
      cbn [AppJsx.perform] in Hrun.
      destruct (AppJsx.act Math_pow s1 a) as [s1'|] eqn:E; [|discriminate].
      apply (IH s1' Hka); [|exact Hrun].
      destruct a as [ev|].
      + destruct ev; try discriminate. cbn in E. injection E as <-.
        reflexivity.
      + cbn [AppJsx.act] in E.
        destruct (AppJsx.CameraController_frame Math_pow
                    (AppJsx.cameraTarget (AppJsx.ui s1))
                    (AppJsx.cameraLookAt (AppJsx.ui s1))
                    (AppJsx.animation s1, AppJsx.camera s1)) as [[a' c']|];
          [|discriminate].
        injection E as <-. exact Hs1. }
  destruct (AppJsx_flight Math_pow (mkVector3 15 12 15) (mkVector3 0 0 0)
              (cam_position (AppJsx.camera sc)) (mkVector3 0 0 0) rest 0
              (AppJsx.mkState (Some (mkVector3 15 12 15))
                 (Some (mkVector3 0 0 0)) None)
              (AppJsx.camera sc) Hk eq_refl eq_refl)
    as (u' & cam' & Hp & Hcam).
  { cbn. discriminate. }
  cbn [Nat.add] in Hp, Hcam.
  rewrite (AppJsx_progress_finished _ Hn) in Hp, Hcam.
  change (fst (Tween.AppJsx_progress 0)) with 0 in Hp.
  change (snd (Tween.AppJsx_progress 0)) with true in Hp.
  eexists. split; [exact Hp|]. cbn [AppJsx.camera AppJsx.animation AppJsx.ui
    AppJsx.isAnimating snd]. repeat split.
  - apply Hcam. reflexivity.
  - apply (Hsel rest _ Hk (eq_refl : AppJsx.selectedPoint
             (AppJsx.ui (AppJsx.mkScene
                (AppJsx.mkState (Some (mkVector3 15 12 15))
                   (Some (mkVector3 0 0 0)) None)
                (AppJsx.mkAnimation (Some (cam_position (AppJsx.camera sc)))
                   (Some (mkVector3 0 0 0)) 0 true)
                (AppJsx.camera sc))) = None) _ Hp).
Qed.

Lemma AppJsx_reset_returns_to_initial_pose_witness :
  exists sc',
    AppJsx.perform (fun a _ => a * a * a)
      (AppJsx.UI AppJsx.ResetCamera :: repeat AppJsx.Frame 250)
      (AppJsx.mkScene
         (AppJsx.mkState (Some (mkVector3 1 2 3)) (Some (mkVector3 0 1 0)) None)
         AppJsx.initialAnimation (Scenario.cameraAt (mkVector3 1 2 3)))
    = Some sc'
    /\ AppJsx.camera sc' = AppJsx.camera AppJsx.initialScene
    /\ AppJsx.selectedPoint (AppJsx.ui sc') = None
    /\ AppJsx.isAnimating (AppJsx.animation sc') = false.
Proof.
  apply (AppJsx_reset_returns_to_initial_pose (fun a _ => a * a * a)
           (AppJsx.mkScene
              (AppJsx.mkState (Some (mkVector3 1 2 3)) (Some (mkVector3 0 1 0))
                 None)
              AppJsx.initialAnimation (Scenario.cameraAt (mkVector3 1 2 3)))
           (repeat AppJsx.Frame 250)).
  - vm_compute. reflexivity.
  - apply Nat.leb_le. vm_compute. reflexivity.
Defined.
